(** * JuliaSphere: the juliaXBT publishing script

    A shallow embedding of [python/scripts/publish_juliaxbt_to_marketplace.py]
    and the properties of its publish workflow.

    The script talks to the JuliaSphere backend through the [juliaos] client
    package.  The workflow itself ([main]) is embedded from the script; the
    backend is an interface ([Backend]) over which [main] is parametric, so
    results about the control flow of [main] hold for every backend.  A
    reference backend ([Ref]) implements the interface as the specification
    describes it, with injectable failures. *)

From Stdlib Require Import String List ZArith Bool Arith Lia.
Import ListNotations.
Local Open Scope string_scope.
Local Open Scope list_scope.

Set Implicit Arguments.

(* ================================================================= *)
(** ** Data model *)

(** Values found in the configuration dictionaries of a blueprint.  A float
    literal is kept as written: [VDec d k] stands for [d * 10^-k]. *)
#[warnings="-register-all"]
Inductive cfgval : Type :=
| VStr (s : string)
| VInt (n : Z)
| VDec (digits : Z) (scale : nat)
| VBool (b : bool)
| VList (l : list cfgval).

Definition dict := list (string * cfgval).

Record ToolBlueprint := { tool_name : string; tool_config : dict }.
Record StrategyBlueprint := { strategy_name : string; strategy_config : dict }.
Record TriggerConfig := { trigger_type : string; trigger_params : dict }.

Record AgentBlueprint := {
  tools : list ToolBlueprint;
  strategy : StrategyBlueprint;
  trigger : TriggerConfig
}.

Inductive AgentState := CREATED | RUNNING | PAUSED | DELETED.

Definition state_text (s : AgentState) : string :=
  match s with
  | CREATED => "CREATED"
  | RUNNING => "RUNNING"
  | PAUSED => "PAUSED"
  | DELETED => "DELETED"
  end.

(** The dictionary returned by [agent.get_info()].  The script reads it only
    through [.get(key, default)], so every key may be absent. *)
Record AgentInfo := {
  info_state : option AgentState;
  info_tools : option (list string);
  info_strategy_name : option string
}.

(** [d.get(key, default)] on an optional field. *)
Definition get {A} (field : option A) (default : A) : A :=
  match field with Some v => v | None => default end.

(** Python values that [main] or a publish operation may hand to its caller. *)
Inductive pyval :=
| PyInt (n : Z)
| PyInfo (i : AgentInfo)
| PyNone.

(* ================================================================= *)
(** ** Exceptions *)

(** The failures of the backend interface, an arbitrary other subclass of
    [Exception], and the two usual exceptions that derive from
    [BaseException] only. *)
Inductive exn :=
| ConnectionError
| NotFoundError
| ConflictError
| ValidationError
| InvalidTransitionError
| OtherException (name : string)
| KeyboardInterrupt
| SystemExit.

(** [isinstance(e, Exception)]: what an [except Exception] clause catches. *)
Definition is_Exception (e : exn) : bool :=
  match e with
  | KeyboardInterrupt | SystemExit => false
  | _ => true
  end.

(* ================================================================= *)
(** ** Module-level configuration of the script *)

Definition HOST := "http://127.0.0.1:8052/api/v1".
Definition AGENT_ID := "juliaxbt-investigator".
Definition AGENT_NAME := "juliaXBT - Blockchain Investigation Agent".
(** The text between the triple quotes, stripped at both ends; two of its
    lines end with spaces. *)
Definition newline : string := String (Ascii.ascii_of_nat 10) EmptyString.

Definition AGENT_DESCRIPTION : string :=
  String.concat newline [
    "Advanced blockchain forensics agent conducting comprehensive investigations in the style of juliaXBT.";
    "";
    "Capabilities:";
    "• Multi-hop transaction tracing across Solana blockchain";
    "• Mixer and privacy protocol detection";
    "• Social media intelligence gathering";
    "• Compliance violation assessment  ";
    "• Automated evidence compilation and reporting";
    "• Investigation thread generation for community awareness";
    "";
    "Perfect for detecting suspicious wallet activity, tracking stolen funds, ";
    "identifying money laundering patterns, and conducting due diligence investigations." ].

Definition AGENT_BLUEPRINT : AgentBlueprint := {|
  tools := [
    {| tool_name := "solana_rpc";
       tool_config := [
         ("rpc_url", VStr "https://api.mainnet-beta.solana.com");
         ("timeout_seconds", VInt 30) ] |};
    {| tool_name := "transaction_tracer";
       tool_config := [
         ("rpc_url", VStr "https://api.mainnet-beta.solana.com");
         ("max_hops", VInt 7);
         ("timeout_seconds", VInt 60);
         ("min_transfer_amount", VDec 1 3) ] |};
    {| tool_name := "mixer_detector";
       tool_config := [
         ("rpc_url", VStr "https://api.mainnet-beta.solana.com");
         ("tornado_cash_addresses", VList [
            VStr "JUP6LkbZbjS1jKKwapdHNy74zcZ3tLUZoi5QNyVTaV4";
            VStr "whirLbMiicVdio4qvUfM5KAg6Ct8VwpYzGff3uctyCc" ]);
         ("samourai_addresses", VList []);
         ("mixer_confidence_threshold", VDec 7 1);
         ("analysis_depth", VInt 5);
         ("timeout_seconds", VInt 30) ] |};
    {| tool_name := "twitter_research";
       tool_config := [
         ("bearer_token", VStr "demo-twitter-bearer-token");
         ("api_base_url", VStr "https://api.twitter.com/2");
         ("max_results_per_request", VInt 50);
         ("timeout_seconds", VInt 30);
         ("include_metrics", VBool true) ] |};
    {| tool_name := "thread_generator";
       tool_config := [
         ("api_key", VStr "demo-key-placeholder");
         ("model_name", VStr "models/gemini-1.5-pro");
         ("temperature", VDec 8 1);
         ("max_output_tokens", VInt 2048);
         ("juliaxbt_style", VBool true) ] |} ];
  strategy := {|
    strategy_name := "juliaxbt_investigation";
    strategy_config := [
      ("max_investigation_depth", VInt 7);
      ("auto_publish_threads", VBool false);
      ("investigation_priority_threshold", VStr "MEDIUM");
      ("enable_social_media_research", VBool true);
      ("evidence_confidence_threshold", VDec 7 1) ] |};
  trigger := {|
    trigger_type := "webhook";
    trigger_params := [ ("path", VStr "/investigate"); ("method", VStr "POST") ] |}
|}.

(** The module-level constants [main] reads, gathered so that the workflow
    can be stated for any identity and blueprint. *)
Record Config := {
  cfg_host : string;
  cfg_agent_id : string;
  cfg_agent_name : string;
  cfg_agent_description : string;
  cfg_blueprint : AgentBlueprint
}.

(** The configuration the script is shipped with. *)
Definition script_config : Config := {|
  cfg_host := HOST;
  cfg_agent_id := AGENT_ID;
  cfg_agent_name := AGENT_NAME;
  cfg_agent_description := AGENT_DESCRIPTION;
  cfg_blueprint := AGENT_BLUEPRINT
|}.

(** The fields of [MARKETPLACE_METADATA] that [main] prints.  The
    documentation text and the usage examples of the dictionary are left
    out: [main] prints only the length of the former. *)
Record MarketplaceMetadata := {
  category : string;
  tags : list string;
  pricing_model : string;
  price_amount : cfgval;
  currency : string;
  featured_image_url : string
}.

Definition MARKETPLACE_METADATA : MarketplaceMetadata := {|
  category := "Blockchain Analytics";
  tags := [ "blockchain"; "investigation"; "forensics"; "solana"; "security";
            "juliaXBT"; "compliance"; "aml"; "defi"; "mixer-detection" ];
  pricing_model := "free";
  price_amount := VDec 0 1;
  currency := "USD";
  featured_image_url := "https://example.com/juliaxbt-logo.png"
|}.

(** The [sample_investigation] dictionary that [main] prints entry by entry. *)
Definition sample_investigation : list (string * string) := [
  ("target_address", "DjVE6JNiYqPL2QXyCUUh8rNjHrbz9hXHNYt99MQ59qw1");
  ("investigation_type", "full");
  ("suspected_activity", "mixer");
  ("urgency_level", "normal") ].

(* ================================================================= *)
(** ** The backend interface *)

(** Modelled from the spec: the [juliaos] client package, which the script
    imports and which is not part of it.  Sections 4.1, 4.2 and 6 list its
    operations.  Section 4.1 gives the connection a scoped acquisition with
    guaranteed release and no failure mode for the release, so [release]
    (the [__exit__] of the [with] block) neither raises nor swallows the
    exception of the block.

    [world] is the state of everything outside the script (the remote
    backend, the network); each operation maps a world to the world it
    leaves and either raises or returns. *)
Class Backend (world conn handle summary : Type) := {
  (** [juliaos.JuliaOSConnection(host).__enter__()] *)
  connect : string -> world -> (exn + conn) * world;
  (** [JuliaOSConnection.__exit__] *)
  release : conn -> world -> world;
  (** [conn.list_agents()] *)
  list_agents : conn -> world -> (exn + list summary) * world;
  (** [juliaos.Agent.load(conn, id)] *)
  load : conn -> string -> world -> (exn + handle) * world;
  (** [juliaos.Agent.create(conn, blueprint, id, name, description)] *)
  create : conn -> AgentBlueprint -> string -> string -> string ->
           world -> (exn + handle) * world;
  (** [agent.delete()] *)
  delete : handle -> world -> (exn + unit) * world;
  (** [agent.set_state(state)] *)
  set_state : handle -> AgentState -> world -> (exn + unit) * world;
  (** [agent.get_info()] *)
  get_info : handle -> world -> (exn + AgentInfo) * world
}.

(* ================================================================= *)
(** ** Observable behaviour: backend calls and printed lines *)

Section Events.
Variables conn handle summary : Type.

(** A call of the script into the backend, with its arguments. *)
Inductive call :=
| CConnect (host : string)
| CRelease (c : conn)
| CListAgents (c : conn)
| CLoad (c : conn) (id : string)
| CCreate (c : conn) (bp : AgentBlueprint) (id name description : string)
| CDelete (h : handle)
| CSetState (h : handle) (s : AgentState)
| CGetInfo (h : handle).

(** What a call gave back. *)
Inductive value :=
| RNone
| RConn (c : conn)
| RHandle (h : handle)
| RSummaries (l : list summary)
| RInfo (i : AgentInfo).

Inductive outcome :=
| Returned (v : value)
| Raised (e : exn).

(** One constructor per [print] statement of [main]; the arguments are the
    values the statement interpolates.  The timestamp of the banner and the
    length of the marketplace documentation are not carried. *)
Inductive line :=
| PTitle                                (* juliaXBT Marketplace Publishing Script *)
| PRule                                 (* a rule of 60 equal signs *)
| PStarted                              (* Started at: ... *)
| PBlank
| PConnecting                           (* Connecting to JuliaSphere backend... *)
| PConnected (host : string)            (* Connected to: {HOST} *)
| PChecking (id : string)               (* Checking for existing agent '{AGENT_ID}'... *)
| PAlreadyExists (id : string)          (* Agent '{AGENT_ID}' already exists. Deleting for clean setup... *)
| PDeleted                              (* Existing agent deleted successfully *)
| PNoExisting (id : string)             (* No existing agent found (expected): {AGENT_ID} *)
| PCurrentAgents                        (* Current agents in system: *)
| PAgentSummary (a : summary)           (*   - {agent_info} *)
| PCreating                             (* Creating juliaXBT Investigation Agent... *)
| PId (id : string)                     (*    ID: {AGENT_ID} *)
| PName (name : string)                 (*    Name: {AGENT_NAME} *)
| PTools (n : nat)                      (*    Tools: {len(AGENT_BLUEPRINT.tools)} *)
| PStrategy (name : string)             (*    Strategy: {AGENT_BLUEPRINT.strategy.name} *)
| PCreated                              (* Agent created successfully! *)
| PSettingRunning                       (* Setting agent state to RUNNING... *)
| PActive                               (* Agent is now active and ready for investigations *)
| PVerification                         (* Agent Configuration Verification: *)
| PInfoState (s : string)               (*    State: {agent_info.get('state', 'unknown')} *)
| PInfoTools (n : nat)                  (*    Tools configured: {len(agent_info.get('tools', []))} *)
| PInfoStrategy (s : string)            (*    Strategy: {agent_info.get('strategy_name', 'unknown')} *)
| PMarketplace                          (* Marketplace Publishing: *)
| PMarketReady                          (*    Agent ready for marketplace publishing *)
| PMarketMetadataPrepared               (*    Marketplace metadata prepared *)
| PMarketTodo                           (*    TODO: Implement marketplace publishing API call *)
| PMetaSummary                          (* Marketplace Metadata Summary: *)
| PMetaCategory (c : string)            (*    Category: {MARKETPLACE_METADATA['category']} *)
| PMetaTags (first : list string) (total : nat)
                                        (*    Tags: {first five, joined}... ({total} total) *)
| PMetaPricing (model : string) (amount : cfgval)
                                        (*    Pricing: {pricing_model} (${price_amount}) *)
| PMetaDocumentation                    (*    Documentation: {length} characters *)
| PSetupComplete                        (* Agent Setup Complete! *)
| PCanTest                              (* You can now test the agent with sample investigations *)
| PWebhookEndpoint (host id : string)   (* Agent webhook endpoint: {HOST}/agents/{AGENT_ID}/webhook *)
| PSampleHeader                         (* Sample Investigation Command: *)
| PSampleOpen                           (*    agent.call_webhook({ *)
| PSampleEntry (key val : string)       (*        {key}: {value}, both quoted *)
| PSampleClose                          (*    }) *)
| PError                                (* Error during agent creation/publishing: *)
| PErrorText (e : exn)                  (*    {str(e)} *)
| PTroubleshooting                      (* Troubleshooting: *)
| PHint1 | PHint2 | PHint3
| PHint4 (host : string).               (*    4. Confirm network connectivity to {HOST} *)

Inductive event :=
| Call (c : call) (o : outcome)
| Out (l : line).

(** The kind of a call, forgetting its arguments. *)
Inductive op :=
| OpConnect | OpRelease | OpListAgents | OpLoad | OpCreate
| OpDelete | OpSetState | OpGetInfo.

Definition op_of (c : call) : op :=
  match c with
  | CConnect _ => OpConnect
  | CRelease _ => OpRelease
  | CListAgents _ => OpListAgents
  | CLoad _ _ => OpLoad
  | CCreate _ _ _ _ _ => OpCreate
  | CDelete _ => OpDelete
  | CSetState _ _ => OpSetState
  | CGetInfo _ => OpGetInfo
  end.

Definition op_eqb (a b : op) : bool :=
  match a, b with
  | OpConnect, OpConnect | OpRelease, OpRelease
  | OpListAgents, OpListAgents | OpLoad, OpLoad | OpCreate, OpCreate
  | OpDelete, OpDelete | OpSetState, OpSetState | OpGetInfo, OpGetInfo => true
  | _, _ => false
  end.

(** The backend calls of a log, in order, without the printed lines. *)
Fixpoint calls (log : list event) : list (call * outcome) :=
  match log with
  | [] => []
  | Call c o :: rest => (c, o) :: calls rest
  | Out _ :: rest => calls rest
  end.

(** The printed lines of a log, in order. *)
Fixpoint output (log : list event) : list line :=
  match log with
  | [] => []
  | Call _ _ :: rest => output rest
  | Out l :: rest => l :: output rest
  end.

Definition ops (log : list event) : list op :=
  map (fun co => op_of (fst co)) (calls log).

(** How many calls of kind [k] a log holds. *)
Definition count_op (k : op) (log : list event) : nat :=
  length (filter (op_eqb k) (ops log)).

(** The calls made while the connection is held: everything but the
    acquisition and the release of the connection itself. *)
Definition session_ops (log : list event) : list op :=
  filter (fun k => negb (op_eqb k OpConnect || op_eqb k OpRelease)) (ops log).
End Events.

Arguments CConnect {conn handle} host.
Arguments CRelease {conn handle} c.
Arguments CListAgents {conn handle} c.
Arguments CLoad {conn handle} c id.
Arguments CCreate {conn handle} c bp id name description.
Arguments CDelete {conn handle} h.
Arguments CSetState {conn handle} h s.
Arguments CGetInfo {conn handle} h.
Arguments RNone {conn handle summary}.
Arguments RConn {conn handle summary} c.
Arguments RHandle {conn handle summary} h.
Arguments RSummaries {conn handle summary} l.
Arguments RInfo {conn handle summary} i.
Arguments Returned {conn handle summary} v.
Arguments Raised {conn handle summary} e.
Arguments PTitle {summary}.
Arguments PRule {summary}.
Arguments PStarted {summary}.
Arguments PBlank {summary}.
Arguments PConnecting {summary}.
Arguments PConnected {summary}.
Arguments PChecking {summary}.
Arguments PAlreadyExists {summary}.
Arguments PDeleted {summary}.
Arguments PNoExisting {summary}.
Arguments PCurrentAgents {summary}.
Arguments PCreating {summary}.
Arguments PId {summary}.
Arguments PName {summary}.
Arguments PTools {summary}.
Arguments PStrategy {summary}.
Arguments PCreated {summary}.
Arguments PSettingRunning {summary}.
Arguments PActive {summary}.
Arguments PVerification {summary}.
Arguments PInfoState {summary}.
Arguments PInfoTools {summary}.
Arguments PInfoStrategy {summary}.
Arguments PMarketplace {summary}.
Arguments PMarketReady {summary}.
Arguments PMarketMetadataPrepared {summary}.
Arguments PMarketTodo {summary}.
Arguments PMetaSummary {summary}.
Arguments PMetaCategory {summary}.
Arguments PMetaTags {summary}.
Arguments PMetaPricing {summary}.
Arguments PMetaDocumentation {summary}.
Arguments PSetupComplete {summary}.
Arguments PCanTest {summary}.
Arguments PWebhookEndpoint {summary}.
Arguments PSampleHeader {summary}.
Arguments PSampleOpen {summary}.
Arguments PSampleEntry {summary}.
Arguments PSampleClose {summary}.
Arguments PError {summary}.
Arguments PErrorText {summary}.
Arguments PTroubleshooting {summary}.
Arguments PHint1 {summary}.
Arguments PHint2 {summary}.
Arguments PHint3 {summary}.
Arguments PHint4 {summary}.
Arguments Call {conn handle summary} c o.
Arguments Out {conn handle summary} l.

(* ================================================================= *)
(** ** Python control flow over a backend *)

Section Workflow.
Context {world conn handle summary : Type}.
Context {B : Backend world conn handle summary}.

Local Abbreviation call := (call conn handle).
Local Abbreviation value := (value conn handle summary).
Local Abbreviation outcome := (outcome conn handle summary).
Local Abbreviation event := (event conn handle summary).
Local Abbreviation line := (line summary).

(** A computation of the script: from the world it starts in, the
    exception it raises or the value it returns, the world it leaves and
    the events it produced, oldest first. *)
Definition M (A : Type) : Type := world -> (exn + A) * world * list event.

Definition ret {A} (a : A) : M A := fun w => (inr a, w, []).

Definition bind {A C} (m : M A) (k : A -> M C) : M C :=
  fun w =>
    match m w with
    | (inl e, w1, l1) => (inl e, w1, l1)
    | (inr a, w1, l1) =>
        match k a w1 with
        | (r, w2, l2) => (r, w2, l1 ++ l2)
        end
    end.

Definition print (l : line) : M unit := fun w => (inr tt, w, [Out l]).

(** A backend call, logged with its outcome; [wrap] says how the returned
    value is recorded. *)
Definition invoke {A} (c : call) (wrap : A -> value)
           (f : world -> (exn + A) * world) : M A :=
  fun w =>
    match f w with
    | (inl e, w1) => (inl e, w1, [Call c (Raised e)])
    | (inr a, w1) => (inr a, w1, [Call c (Returned (wrap a))])
    end.

(** [try: body / except Exception as e: handler e].  Exceptions that are
    not instances of [Exception] pass through. *)
Definition try_except {A} (body : M A) (handler : exn -> M A) : M A :=
  fun w =>
    match body w with
    | (inl e, w1, l1) =>
        if is_Exception e then
          match handler e w1 with
          | (r, w2, l2) => (r, w2, l1 ++ l2)
          end
        else (inl e, w1, l1)
    | (inr a, w1, l1) => (inr a, w1, l1)
    end.

(** [with juliaos.JuliaOSConnection(host) as conn: body conn].  When the
    connection is acquired it is released on every way out of the body,
    and the outcome of the body is the outcome of the block. *)
Definition with_connection {A} (host : string) (body : conn -> M A) : M A :=
  fun w =>
    match invoke (CConnect host) RConn (connect host) w with
    | (inl e, w1, l1) => (inl e, w1, l1)
    | (inr c, w1, l1) =>
        match body c w1 with
        | (r, w2, l2) =>
            (r, release c w2, l1 ++ l2 ++ [Call (CRelease c) (Returned RNone)])
        end
    end.

(** [for x in xs: body x] *)
Fixpoint for_each {A} (xs : list A) (body : A -> M unit) : M unit :=
  match xs with
  | [] => ret tt
  | x :: rest => bind (body x) (fun _ => for_each rest body)
  end.

(** The client operations, as logged calls. *)
Definition Agent_load (c : conn) (id : string) : M handle :=
  invoke (CLoad c id) RHandle (load c id).

Definition Agent_create (c : conn) (bp : AgentBlueprint)
           (id name description : string) : M handle :=
  invoke (CCreate c bp id name description) RHandle
         (create c bp id name description).

Definition Agent_delete (h : handle) : M unit :=
  invoke (CDelete h) (fun _ => RNone) (delete h).

Definition Agent_set_state (h : handle) (s : AgentState) : M unit :=
  invoke (CSetState h s) (fun _ => RNone) (set_state h s).

Definition Agent_get_info (h : handle) : M AgentInfo :=
  invoke (CGetInfo h) RInfo (get_info h).

Definition conn_list_agents (c : conn) : M (list summary) :=
  invoke (CListAgents c) RSummaries (list_agents c).

Declare Scope py_scope.
Delimit Scope py_scope with py.
Notation "x <- m ;; k" := (bind m (fun x => k))
  (at level 61, m at next level, right associativity) : py_scope.
Notation "m ;; k" := (bind m (fun _ => k))
  (at level 61, right associativity) : py_scope.
Local Open Scope py_scope.

(* ================================================================= *)
(** ** The script *)

(** [main()], reading the module-level constants from [cfg].  Its result
    is the value of the [return] statement it reaches. *)
Definition main (cfg : Config) : M pyval :=
  let HOST := cfg_host cfg in
  let AGENT_ID := cfg_agent_id cfg in
  let AGENT_NAME := cfg_agent_name cfg in
  let AGENT_DESCRIPTION := cfg_agent_description cfg in
  let AGENT_BLUEPRINT := cfg_blueprint cfg in
  print PTitle ;;
  print PRule ;;
  print PStarted ;;
  print PBlank ;;
  try_except
    (print PConnecting ;;
     with_connection HOST (fun conn =>
       print (PConnected HOST) ;;
       (* Check for existing agent and handle cleanup *)
       try_except
         (print (PChecking AGENT_ID) ;;
          existing_agent <- Agent_load conn AGENT_ID ;;
          print (PAlreadyExists AGENT_ID) ;;
          Agent_delete existing_agent ;;
          print PDeleted)
         (fun e => print (PNoExisting AGENT_ID)) ;;
       (* List current agents for context *)
       print PCurrentAgents ;;
       current_agents <- conn_list_agents conn ;;
       for_each current_agents (fun agent_info => print (PAgentSummary agent_info)) ;;
       print PCreating ;;
       print (PId AGENT_ID) ;;
       print (PName AGENT_NAME) ;;
       print (PTools (length (tools AGENT_BLUEPRINT))) ;;
       print (PStrategy (strategy_name (strategy AGENT_BLUEPRINT))) ;;
       (* Create the agent *)
       agent <- Agent_create conn AGENT_BLUEPRINT AGENT_ID AGENT_NAME AGENT_DESCRIPTION ;;
       print PCreated ;;
       (* Set agent to running state *)
       print PSettingRunning ;;
       Agent_set_state agent RUNNING ;;
       print PActive ;;
       (* Verify agent configuration *)
       print PVerification ;;
       agent_info <- Agent_get_info agent ;;
       print (PInfoState (get (option_map state_text (info_state agent_info)) "unknown")) ;;
       print (PInfoTools (length (get (info_tools agent_info) []))) ;;
       print (PInfoStrategy (get (info_strategy_name agent_info) "unknown")) ;;
       (* TODO: Publish to marketplace *)
       print PMarketplace ;;
       print PMarketReady ;;
       print PMarketMetadataPrepared ;;
       print PMarketTodo ;;
       print PBlank ;;
       (* Display marketplace metadata *)
       print PMetaSummary ;;
       print (PMetaCategory (category MARKETPLACE_METADATA)) ;;
       print (PMetaTags (firstn 5 (tags MARKETPLACE_METADATA))
                        (length (tags MARKETPLACE_METADATA))) ;;
       print (PMetaPricing (pricing_model MARKETPLACE_METADATA)
                           (price_amount MARKETPLACE_METADATA)) ;;
       print PMetaDocumentation ;;
       print PSetupComplete ;;
       print PCanTest ;;
       print (PWebhookEndpoint HOST AGENT_ID) ;;
       (* Display sample investigation *)
       print PSampleHeader ;;
       print PSampleOpen ;;
       for_each sample_investigation
         (fun kv => print (PSampleEntry (fst kv) (snd kv))) ;;
       print PSampleClose ;;
       ret (PyInt 0)))
    (fun e =>
       print PError ;;
       print (PErrorText e) ;;
       print PTroubleshooting ;;
       print PHint1 ;;
       print PHint2 ;;
       print PHint3 ;;
       print (PHint4 HOST) ;;
       ret (PyInt 1)).

End Workflow.

(** The three components of a run. *)
Definition result_of {A W L : Type} (x : A * W * L) : A := fst (fst x).
Definition world_of {A W L : Type} (x : A * W * L) : W := snd (fst x).
Definition log_of {A W L : Type} (x : A * W * L) : L := snd x.

(** The calls inside the inner [try] of [main], whose [except Exception]
    clause goes on with the workflow. *)
Definition in_cleanup (k : op) : bool :=
  match k with
  | OpLoad | OpDelete => true
  | _ => false
  end.

(* ================================================================= *)
(** ** Statements of the specification, as it words them *)

Section Stated.
Context {world conn handle summary : Type}.
Local Abbreviation outcome_of_run :=
  ((exn + pyval) * world * list (event conn handle summary))%type.

(** The order of backend operations the specification gives for a successful
    publish: load, delete when the load found a resource, create, set_state,
    get_info. *)
Definition spec_order (found : bool) : list op :=
  [OpLoad] ++ (if found then [OpDelete] else []) ++
  [OpCreate; OpSetState; OpGetInfo].

Definition stated_order (r : outcome_of_run) : Prop :=
  result_of r = inr (PyInt 0) ->
  exists found, session_ops (log_of r) = spec_order found.

(** Scenario C: an unreachable backend at the load step fails the publish
    and no create is attempted. *)
Definition stated_load_failure_is_fatal (r : outcome_of_run) : Prop :=
  forall c i,
    In (CLoad c i, Raised ConnectionError) (calls (log_of r)) ->
    result_of r <> inr (PyInt 0) /\ count_op OpCreate (log_of r) = 0.

(** The publish returns the result of its final [get_info]. *)
Definition stated_returns_info (r : outcome_of_run) : Prop :=
  forall h i,
    In (CGetInfo h, Returned (RInfo i)) (calls (log_of r)) ->
    result_of r = inr (PyInfo i).



(** Whenever a backend operation raises an Exception, [main] returns 1. *)
Definition stated_any_failure_exits_1 (r : outcome_of_run) : Prop :=
  forall c e,
    In (c, Raised e) (calls (log_of r)) -> is_Exception e = true ->
    result_of r = inr (PyInt 1).

End Stated.

(* ================================================================= *)
(** ** A reference backend *)

Module Ref.

(** Modelled from the spec: the identity of section 3, the join key between
    the caller's intent and the remote resource. *)
Record AgentIdentity := {
  id : string;
  display_name : string;
  description : string
}.

(** Modelled from the spec: a remote agent resource as the backend of
    section 4.2 stores it, with the authoritative copy of its state. *)
Record resource := {
  res_identity : AgentIdentity;
  res_blueprint : AgentBlueprint;
  res_state : AgentState
}.

(** Modelled from the spec: the local handle of section 3 (identity and
    blueprint reference).  Its cached state is left out: no operation of the
    client reads it, the backend copy is the authoritative one. *)
Record handle := {
  h_identity : AgentIdentity;
  h_blueprint : AgentBlueprint
}.

(** Modelled from the spec: one entry of [list_agents()]. *)
Record summary := {
  sum_id : string;
  sum_name : string;
  sum_state : AgentState
}.

(** Modelled from the spec: the world of the reference backend.  [store]
    holds the remote resources in creation order; [faults] is the plan of
    injected failures, one entry per coming call ([Some e]: the call raises
    [e] and changes nothing; [None] or no entry: the call runs); the three
    registries list the tool, strategy and trigger names the backend can
    resolve. *)
Record world := {
  store : list resource;
  faults : list (option exn);
  tool_registry : list string;
  strategy_registry : list string;
  trigger_registry : list string
}.

Definition set_store (st : list resource) (w : world) : world :=
  {| store := st; faults := faults w; tool_registry := tool_registry w;
     strategy_registry := strategy_registry w;
     trigger_registry := trigger_registry w |}.

Definition set_faults (fs : list (option exn)) (w : world) : world :=
  {| store := store w; faults := fs; tool_registry := tool_registry w;
     strategy_registry := strategy_registry w;
     trigger_registry := trigger_registry w |}.

(** Modelled from the spec: a call consumes one entry of the fault plan; an
    injected failure leaves the store as it is (section 7: a failed step
    leaves the resource in the state of the last successful step). *)
Definition guarded {A} (f : world -> (exn + A) * world)
  : world -> (exn + A) * world :=
  fun w =>
    match faults w with
    | [] => f w
    | None :: fs => f (set_faults fs w)
    | Some e :: fs => (inl e, set_faults fs w)
    end.

Definition has_id (i : string) (r : resource) : bool :=
  String.eqb i (id (res_identity r)).

Definition lookup (i : string) (st : list resource) : option resource :=
  find (has_id i) st.

(** The resources stored under an id. *)
Definition under (i : string) (st : list resource) : list resource :=
  filter (has_id i) st.

(** The store once everything under an id is removed. *)
Definition without (i : string) (st : list resource) : list resource :=
  filter (fun r => negb (has_id i r)) st.

Definition known (names : list string) (n : string) : bool :=
  existsb (String.eqb n) names.

(** Modelled from the spec: every tool, strategy and trigger name of the
    blueprint is one the backend resolves (section 4.2, [ValidationError]). *)
Definition resolvable (w : world) (bp : AgentBlueprint) : bool :=
  forallb (fun t => known (tool_registry w) (tool_name t)) (tools bp)
  && known (strategy_registry w) (strategy_name (strategy bp))
  && known (trigger_registry w) (trigger_type (trigger bp)).

(** Modelled from the spec: the transitions of [set_state] (section 4.2):
    CREATED to RUNNING, RUNNING to PAUSED, PAUSED to RUNNING. *)
Definition valid_transition (from to : AgentState) : bool :=
  match from, to with
  | CREATED, RUNNING | RUNNING, PAUSED | PAUSED, RUNNING => true
  | _, _ => false
  end.

Definition info_of (s : AgentState) (bp : AgentBlueprint) : AgentInfo :=
  {| info_state := Some s;
     info_tools := Some (map tool_name (tools bp));
     info_strategy_name := Some (strategy_name (strategy bp)) |}.

(** Modelled from the spec: [open(endpoint)]; it fails only when the
    endpoint is unreachable, which is an injected failure here. *)
Definition ref_connect (host : string) : world -> (exn + string) * world :=
  guarded (fun w => (inr host, w)).

(** Modelled from the spec: the release of the connection. *)
Definition ref_release (c : string) (w : world) : world := w.

(** Modelled from the spec: [list_agents()], read-only. *)
Definition ref_list_agents (c : string) : world -> (exn + list summary) * world :=
  guarded (fun w =>
    (inr (map (fun r => {| sum_id := id (res_identity r);
                           sum_name := display_name (res_identity r);
                           sum_state := res_state r |}) (store w)), w)).

(** Modelled from the spec: [load(conn, id)], read-only, [NotFoundError]
    when no resource is stored under the id. *)
Definition ref_load (c : string) (i : string) : world -> (exn + handle) * world :=
  guarded (fun w =>
    match lookup i (store w) with
    | Some r => (inr {| h_identity := res_identity r;
                        h_blueprint := res_blueprint r |}, w)
    | None => (inl NotFoundError, w)
    end).

(** Modelled from the spec: [create]: [ConflictError] when the id is taken,
    [ValidationError] when a name of the blueprint does not resolve,
    otherwise a new resource in state CREATED. *)
Definition ref_create (c : string) (bp : AgentBlueprint)
           (i name desc : string) : world -> (exn + handle) * world :=
  guarded (fun w =>
    if existsb (has_id i) (store w) then (inl ConflictError, w)
    else if negb (resolvable w bp) then (inl ValidationError, w)
    else
      let ident := {| id := i; display_name := name; description := desc |} in
      (inr {| h_identity := ident; h_blueprint := bp |},
       set_store (store w ++ [{| res_identity := ident; res_blueprint := bp;
                                 res_state := CREATED |}]) w)).

(** Modelled from the spec: [delete()]: the resource and its state are
    destroyed; [NotFoundError] when it is already gone. *)
Definition ref_delete (h : handle) : world -> (exn + unit) * world :=
  guarded (fun w =>
    let i := id (h_identity h) in
    if existsb (has_id i) (store w)
    then (inr tt, set_store (without i (store w)) w)
    else (inl NotFoundError, w)).

(** Modelled from the spec: [set_state(target)]: a valid transition
    updates the backend copy of the state, anything else (a deleted
    resource included) is an [InvalidTransitionError]. *)
Definition ref_set_state (h : handle) (target : AgentState)
  : world -> (exn + unit) * world :=
  guarded (fun w =>
    let i := id (h_identity h) in
    match lookup i (store w) with
    | Some r =>
        if valid_transition (res_state r) target
        then (inr tt,
              set_store (map (fun r' =>
                                if has_id i r'
                                then {| res_identity := res_identity r';
                                        res_blueprint := res_blueprint r';
                                        res_state := target |}
                                else r') (store w)) w)
        else (inl InvalidTransitionError, w)
    | None => (inl InvalidTransitionError, w)
    end).

(** Modelled from the spec: [get_info()]: a fresh read of the state, the
    tools and the strategy name; a deleted resource reads as DELETED. *)
Definition ref_get_info (h : handle) : world -> (exn + AgentInfo) * world :=
  guarded (fun w =>
    match lookup (id (h_identity h)) (store w) with
    | Some r => (inr (info_of (res_state r) (res_blueprint r)), w)
    | None => (inr (info_of DELETED (h_blueprint h)), w)
    end).

#[export] Instance backend : Backend world string handle summary := {
  connect := ref_connect;
  release := ref_release;
  list_agents := ref_list_agents;
  load := ref_load;
  create := ref_create;
  delete := ref_delete;
  set_state := ref_set_state;
  get_info := ref_get_info
}.

(** A backend that resolves the names of [bp], holding [st], with the fault
    plan [fs]. *)
Definition world_for (bp : AgentBlueprint) (st : list resource)
           (fs : list (option exn)) : world :=
  {| store := st; faults := fs;
     tool_registry := map tool_name (tools bp);
     strategy_registry := [strategy_name (strategy bp)];
     trigger_registry := [trigger_type (trigger bp)] |}.

(** A fresh backend for the script: nothing stored, no failure planned. *)
Definition fresh : world := world_for AGENT_BLUEPRINT [] [].

(** The run of the script on the reference backend. *)
Definition run (cfg : Config) (w : world) := main (B := backend) cfg w.

(** The resource and the handle that a publish of [cfg] creates. *)
Definition published (cfg : Config) (s : AgentState) : resource :=
  {| res_identity := {| id := cfg_agent_id cfg;
                        display_name := cfg_agent_name cfg;
                        description := cfg_agent_description cfg |};
     res_blueprint := cfg_blueprint cfg;
     res_state := s |}.

Definition handle_of (cfg : Config) : handle :=
  {| h_identity := {| id := cfg_agent_id cfg;
                      display_name := cfg_agent_name cfg;
                      description := cfg_agent_description cfg |};
     h_blueprint := cfg_blueprint cfg |}.

(** A configuration with the first two tools of the script only. *)
Definition two_tools : Config := {|
  cfg_host := HOST;
  cfg_agent_id := AGENT_ID;
  cfg_agent_name := AGENT_NAME;
  cfg_agent_description := AGENT_DESCRIPTION;
  cfg_blueprint := {| tools := firstn 2 (tools AGENT_BLUEPRINT);
                      strategy := strategy AGENT_BLUEPRINT;
                      trigger := trigger AGENT_BLUEPRINT |}
|}.

(** Scenarios: the backend cannot be reached when the script loads the
    agent (second call), with nothing stored and with the id taken; and the
    backend cannot be reached when the script sets the state (fifth call). *)
Definition unreachable_at_load : world :=
  world_for AGENT_BLUEPRINT [] [None; Some ConnectionError].

Definition taken_and_unreachable_at_load : world :=
  world_for AGENT_BLUEPRINT [published script_config RUNNING]
            [None; Some ConnectionError].

Definition unreachable_at_set_state : world :=
  world_for AGENT_BLUEPRINT [] [None; None; None; None; Some ConnectionError].

(** More scenarios: the backend cannot be reached at all; the run is
    interrupted while the script loads the agent; and, the id being taken,
    the backend cannot be reached when the script deletes the agent (third
    call) or lists the agents (fourth call, after the delete). *)
Definition unreachable : world :=
  world_for AGENT_BLUEPRINT [] [Some ConnectionError].

Definition interrupted_at_load : world :=
  world_for AGENT_BLUEPRINT [] [None; Some KeyboardInterrupt].

Definition taken_and_unreachable_at_delete : world :=
  world_for AGENT_BLUEPRINT [published script_config RUNNING]
            [None; None; Some ConnectionError].

Definition taken_and_unreachable_at_list : world :=
  world_for AGENT_BLUEPRINT [published script_config RUNNING]
            [None; None; None; Some ConnectionError].

End Ref.


(* ================================================================= *)
(** ** Logs *)

Section LogFacts.
Context {conn handle summary : Type}.
Local Abbreviation event := (event conn handle summary).

Lemma calls_app (l1 l2 : list event) : calls (l1 ++ l2) = calls l1 ++ calls l2.
Proof.
  induction l1 as [|[c o|l] l1 IH]; simpl; [reflexivity | f_equal; exact IH | exact IH].
Qed.

Lemma output_app (l1 l2 : list event) : output (l1 ++ l2) = output l1 ++ output l2.
Proof.
  induction l1 as [|[c o|l] l1 IH]; simpl; [reflexivity | exact IH | f_equal; exact IH].
Qed.

Lemma calls_lines {A} (f : A -> line summary) (xs : list A) :
  calls (map (fun a => Out (conn := conn) (handle := handle) (f a)) xs) = [].
Proof. induction xs; simpl; auto. Qed.

Lemma output_lines {A} (f : A -> line summary) (xs : list A) :
  output (map (fun a => Out (conn := conn) (handle := handle) (f a)) xs) = map f xs.
Proof. induction xs; simpl; congruence. Qed.

End LogFacts.

(* ================================================================= *)
(** ** Running [main] symbolically *)

Section RunFacts.
Context {world conn handle summary : Type}.
Context {B : Backend world conn handle summary}.

Lemma for_each_print {A} (f : A -> line summary) (xs : list A) (w : world) :
  (for_each xs (fun a w' => (inr tt, w', [Out (f a)]))
   : M (world := world) (conn := conn) (handle := handle) unit) w
  = (inr tt, w, map (fun a => Out (f a)) xs).
Proof.
  induction xs as [|x xs IH]; simpl; [reflexivity|].
  unfold bind at 1. rewrite IH. reflexivity.
Qed.

Lemma split_here {A} (l : list A) : l = [] ++ l.
Proof. reflexivity. Qed.

Lemma split_later {A} (x : A) (t pre s : list A) :
  t = pre ++ s -> x :: t = (x :: pre) ++ s.
Proof. intros ->. reflexivity. Qed.

Lemma split_after {A} (m t pre s : list A) :
  t = pre ++ s -> m ++ t = (m ++ pre) ++ s.
Proof. intros ->. apply app_assoc. Qed.

End RunFacts.

Ltac unfold_main H :=
  cbv beta iota zeta delta
    [main bind print ret try_except with_connection invoke
     Agent_load Agent_create Agent_delete Agent_set_state Agent_get_info
     conn_list_agents] in H.

(* One step of the run: case analysis on the next backend call, or on the
   class of the exception that reached an except clause. *)
Ltac step H :=
  cbv beta iota in H;
  match type of H with
  | context [connect ?h ?w] =>
      destruct (connect h w) as [[?e | ?c] ?w] eqn:?Hconnect
  | context [load ?c ?i ?w] =>
      destruct (load c i w) as [[?e | ?h] ?w] eqn:?Hload
  | context [delete ?h ?w] =>
      destruct (delete h w) as [[?e | []] ?w] eqn:?Hdelete
  | context [list_agents ?c ?w] =>
      destruct (list_agents c w) as [[?e | ?l] ?w] eqn:?Hlist
  | context [create ?c ?b ?i ?n ?d ?w] =>
      destruct (create c b i n d w) as [[?e | ?h] ?w] eqn:?Hcreate
  | context [set_state ?h ?s ?w] =>
      destruct (set_state h s w) as [[?e | []] ?w] eqn:?Hset
  | context [get_info ?h ?w] =>
      destruct (get_info h w) as [[?e | ?i] ?w] eqn:?Hinfo
  | context [is_Exception ?e] =>
      destruct (is_Exception e) eqn:?Hexc
  | context [for_each ?xs _ ?w] =>
      rewrite (for_each_print _ xs w) in H
  end.

(* All the paths of a run H : main cfg w = (r, w', log), each with its
   result, final world and log made explicit. *)
Ltac paths H :=
  unfold_main H; repeat step H; cbv beta iota in H;
  injection H as <- <- <-.

Ltac norm_log :=
  repeat (simpl; rewrite ?calls_app, ?output_app, ?calls_lines, ?output_lines);
  repeat (simpl; rewrite <- ?app_assoc).

Ltac start B cfg w Hrun :=
  let r := fresh "r" in
  let w' := fresh "w'" in
  let log := fresh "log" in
  destruct (main (B := B) cfg w) as [[r w'] log] eqn:Hrun;
  paths Hrun;
  unfold result_of, world_of, log_of, count_op, ops, session_ops;
  norm_log.

(* Case analysis on a membership in an explicit list. *)
Ltac in_cases H :=
  simpl in H;
  lazymatch type of H with
  | False => contradiction
  | _ \/ _ =>
      destruct H as [H | H];
      [ try discriminate H; try (injection H; clear H; intros); subst
      | in_cases H ]
  | In _ (map _ _) =>
      apply in_map_iff in H; destruct H as [? [H _]]; discriminate H
  | In _ (_ ++ _) =>
      apply in_app_or in H; destruct H as [H | H]; in_cases H
  | _ => idtac
  end.

(* Membership in an explicit list, by position. *)
Ltac find_in :=
  simpl;
  (left; reflexivity) + (right; find_in)
  + (apply in_or_app; right; find_in) + (apply in_or_app; left; find_in).

(* Settle the tests on the class of the exceptions met on the path. *)
Ltac use_exc :=
  repeat match goal with
         | H : is_Exception ?e = _ |- context [is_Exception ?e] => rewrite H
         end.

(* An explicit list as a prefix followed by a given pattern. *)
Ltac find_split :=
  solve [ repeat first [ apply split_here | apply split_later | apply split_after ] ].

(* ================================================================= *)
(** ** Control flow of [main] over any backend *)

Section Control.
Context {world conn handle summary : Type}.
Context {B : Backend world conn handle summary}.

Local Abbreviation run cfg w := (main (B := B) cfg w).

(** C10: in every run, [delete] and [create] are each called at most once,
    and a [delete] is called only on the handle that the [load] of the
    target id has just returned. *)
Theorem delete_and_create_at_most_once (cfg : Config) (w : world) :
  count_op OpDelete (log_of (run cfg w)) <= 1 /\
  count_op OpCreate (log_of (run cfg w)) <= 1 /\
  forall h o,
    In (CDelete h, o) (calls (log_of (run cfg w))) ->
    exists c post,
      calls (log_of (run cfg w))
      = (CConnect (cfg_host cfg), Returned (RConn c))
        :: (CLoad c (cfg_agent_id cfg), Returned (RHandle h))
        :: (CDelete h, o) :: post.
Proof.
  start B cfg w Hrun.
  all: repeat split; try lia.
  all: intros h' o' Hin; in_cases Hin.
  all: eexists; eexists; reflexivity.
Qed.


(** C2, as the script has it: an Exception raised by the initial [load], or
    by the [delete] that follows it, is recovered silently: the script notes
    that no existing agent was found and goes on to [list_agents]; when
    [list_agents] returns, the next call is the [create] of the configured
    agent; and when no call outside this cleanup raises, the run makes its
    one create and returns 0.  An Exception raised by any other backend call
    ends the run with exit code 1 and the error reported, and nothing but
    the release of the connection follows the failed call. *)
Theorem failure_policy (cfg : Config) (w : world) c0 (e : exn) :
  In (c0, Raised e) (calls (log_of (run cfg w))) ->
  is_Exception e = true ->
  if in_cleanup (op_of c0)
  then
    In (PNoExisting (cfg_agent_id cfg)) (output (log_of (run cfg w))) /\
    (exists pre c o post,
       calls (log_of (run cfg w))
       = pre ++ (c0, Raised e) :: (CListAgents c, o) :: post /\
       forall l, o = Returned (RSummaries l) ->
                 exists o' post',
                   post = (CCreate c (cfg_blueprint cfg) (cfg_agent_id cfg)
                                   (cfg_agent_name cfg)
                                   (cfg_agent_description cfg), o')
                          :: post') /\
    ((forall c' e', In (c', Raised e') (calls (log_of (run cfg w))) ->
                    in_cleanup (op_of c') = true) ->
     result_of (run cfg w) = inr (PyInt 0) /\
     count_op OpCreate (log_of (run cfg w)) = 1)
  else
    result_of (run cfg w) = inr (PyInt 1) /\
    In (PErrorText e) (output (log_of (run cfg w))) /\
    exists pre released,
      calls (log_of (run cfg w)) = pre ++ (c0, Raised e) :: released /\
      forall x, In x released -> op_of (fst x) = OpRelease.
Proof.
  start B cfg w Hrun.
  all: intros Hin He; in_cases Hin; try congruence.
  all: simpl.
  all: try (split; [once find_in | split;
              [ do 4 eexists; split;
                [ find_split
                | intros l' Hl;
                  first [ discriminate Hl | do 2 eexists; reflexivity ] ]
              | intros Hall;
                first
                  [ split; reflexivity
                  | exfalso;
                    match goal with
                    | H : list_agents ?c _ = (inl ?x, _) |- _ =>
                        discriminate (Hall (CListAgents c) x ltac:(find_in))
                    | H : create ?c ?b ?i ?n ?d _ = (inl ?x, _) |- _ =>
                        discriminate (Hall (CCreate c b i n d) x ltac:(find_in))
                    | H : set_state ?h ?s _ = (inl ?x, _) |- _ =>
                        discriminate (Hall (CSetState h s) x ltac:(find_in))
                    | H : get_info ?h _ = (inl ?x, _) |- _ =>
                        discriminate (Hall (CGetInfo h) x ltac:(find_in))
                    end ] ] ]; fail).
  all: repeat split; try once find_in.
  all: do 2 eexists; (split; [find_split |]).
  all: intros x Hx; in_cases Hx; reflexivity.
Qed.

(** C9, as the script has it: [main] never propagates an Exception, only an
    exception that is not one; whenever it returns, it returns 0 or 1; it
    returns 1 exactly when a call other than the initial [load] and its
    [delete] (that is connect, list_agents, create, set_state or get_info)
    raised an Exception, and 0 exactly when no such call raised and the
    [load] and [delete] raised nothing but Exceptions, which are absorbed. *)
Theorem exit_code_of_main (cfg : Config) (w : world) :
  (forall e, result_of (run cfg w) = inl e -> is_Exception e = false) /\
  (forall v, result_of (run cfg w) = inr v -> v = PyInt 0 \/ v = PyInt 1) /\
  (result_of (run cfg w) = inr (PyInt 1) <->
   exists c e, In (c, Raised e) (calls (log_of (run cfg w))) /\
               in_cleanup (op_of c) = false /\ is_Exception e = true) /\
  (result_of (run cfg w) = inr (PyInt 0) <->
   forall c e, In (c, Raised e) (calls (log_of (run cfg w))) ->
               in_cleanup (op_of c) = true /\ is_Exception e = true).
Proof.
  start B cfg w Hrun.
  all: split; [intros x Hx; inversion Hx; subst; assumption |].
  all: split; [intros x Hx; inversion Hx; auto |].
  all: split; split.
  all: try discriminate.
  all: try reflexivity.
  all: try (intros [c' [e' [Hin [Hop He']]]]; in_cases Hin;
            simpl in *; congruence).
  all: try (intros _; do 2 eexists; split; [find_in | split; [reflexivity | assumption]]).
  all: try (intros _ c' e' Hin; in_cases Hin; [split; [reflexivity | assumption] ..]).
  all: intros Hall; exfalso.
  all: match goal with
       | H : list_agents ?c _ = (inl ?e, _) |- _ =>
           destruct (Hall (CListAgents c) e ltac:(find_in)) as [Hc He]
       | H : create ?c ?b ?i ?n ?d _ = (inl ?e, _) |- _ =>
           destruct (Hall (CCreate c b i n d) e ltac:(find_in)) as [Hc He]
       | H : set_state ?h ?s _ = (inl ?e, _) |- _ =>
           destruct (Hall (CSetState h s) e ltac:(find_in)) as [Hc He]
       | H : get_info ?h _ = (inl ?e, _) |- _ =>
           destruct (Hall (CGetInfo h) e ltac:(find_in)) as [Hc He]
       | H : connect ?h _ = (inl ?e, _) |- _ =>
           destruct (Hall (CConnect h) e ltac:(find_in)) as [Hc He]
       | H : delete ?h _ = (inl ?e, _) |- _ =>
           destruct (Hall (CDelete h) e ltac:(find_in)) as [Hc He]
       | H : load ?c ?i _ = (inl ?e, _) |- _ =>
           destruct (Hall (CLoad c i) e ltac:(find_in)) as [Hc He]
       end; simpl in *; congruence.
Qed.

(** C3, as the script has it: a successful run makes exactly these backend
    calls, in this order: connect, load of the target id, delete of the
    loaded handle when the load returned one, list_agents, create from the
    blueprint, set_state(RUNNING) and get_info on the created handle, and
    the release of the connection. *)
Theorem success_call_sequence (cfg : Config) (w : world) :
  result_of (run cfg w) = inr (PyInt 0) ->
  (exists c e l h i,
     calls (log_of (run cfg w))
     = [ (CConnect (cfg_host cfg), Returned (RConn c));
         (CLoad c (cfg_agent_id cfg), Raised e);
         (CListAgents c, Returned (RSummaries l));
         (CCreate c (cfg_blueprint cfg) (cfg_agent_id cfg)
                  (cfg_agent_name cfg) (cfg_agent_description cfg),
          Returned (RHandle h));
         (CSetState h RUNNING, Returned RNone);
         (CGetInfo h, Returned (RInfo i));
         (CRelease c, Returned RNone) ]) \/
  (exists c h0 o l h i,
     calls (log_of (run cfg w))
     = [ (CConnect (cfg_host cfg), Returned (RConn c));
         (CLoad c (cfg_agent_id cfg), Returned (RHandle h0));
         (CDelete h0, o);
         (CListAgents c, Returned (RSummaries l));
         (CCreate c (cfg_blueprint cfg) (cfg_agent_id cfg)
                  (cfg_agent_name cfg) (cfg_agent_description cfg),
          Returned (RHandle h));
         (CSetState h RUNNING, Returned RNone);
         (CGetInfo h, Returned (RInfo i));
         (CRelease c, Returned RNone) ]).
Proof.
  start B cfg w Hrun.
  all: intros Hok; try discriminate Hok.
  all: first [ left; do 5 eexists; reflexivity
             | right; do 6 eexists; reflexivity ].
Qed.

(** On every backend: a run whose initial [load] raised NotFoundError notes
    it as expected and goes on to [list_agents]; when nothing else fails, it
    succeeds end to end (exit code 0, no error reported) having created the
    agent, set it RUNNING and read its info. *)
Lemma not_found_on_load_is_tolerated (cfg : Config) (w : world) c :
  In (CLoad c (cfg_agent_id cfg), Raised NotFoundError)
     (calls (log_of (run cfg w))) ->
  In (PNoExisting (cfg_agent_id cfg)) (output (log_of (run cfg w))) /\
  (exists o post,
     calls (log_of (run cfg w))
     = (CConnect (cfg_host cfg), Returned (RConn c))
       :: (CLoad c (cfg_agent_id cfg), Raised NotFoundError)
       :: (CListAgents c, o) :: post) /\
  ((forall c' e, In (c', Raised e) (calls (log_of (run cfg w))) ->
                 op_of c' = OpLoad) ->
   result_of (run cfg w) = inr (PyInt 0) /\
   ~ In PError (output (log_of (run cfg w))) /\
   exists l h i,
     calls (log_of (run cfg w))
     = [ (CConnect (cfg_host cfg), Returned (RConn c));
         (CLoad c (cfg_agent_id cfg), Raised NotFoundError);
         (CListAgents c, Returned (RSummaries l));
         (CCreate c (cfg_blueprint cfg) (cfg_agent_id cfg)
                  (cfg_agent_name cfg) (cfg_agent_description cfg),
          Returned (RHandle h));
         (CSetState h RUNNING, Returned RNone);
         (CGetInfo h, Returned (RInfo i));
         (CRelease c, Returned RNone) ]).
Proof.
  start B cfg w Hrun.
  all: intros Hin; in_cases Hin; try (simpl in *; congruence).
  all: split; [once find_in | split; [do 2 eexists; reflexivity |]].
  all: intros Honly.
  all: try (exfalso;
            match goal with
            | H : list_agents ?c _ = (inl ?e, _) |- _ =>
                discriminate (Honly (CListAgents c) e ltac:(find_in))
            | H : create ?c ?b ?i ?n ?d _ = (inl ?e, _) |- _ =>
                discriminate (Honly (CCreate c b i n d) e ltac:(find_in))
            | H : set_state ?h ?s _ = (inl ?e, _) |- _ =>
                discriminate (Honly (CSetState h s) e ltac:(find_in))
            | H : get_info ?h _ = (inl ?e, _) |- _ =>
                discriminate (Honly (CGetInfo h) e ltac:(find_in))
            end).
  split; [reflexivity | split; [intro Hn; in_cases Hn | do 3 eexists; reflexivity]].
Qed.

(** Whenever [main] returns, it returns one of the two exit codes; no other
    object reaches the caller. *)
Lemma main_returns_exit_code (cfg : Config) (w : world) (v : pyval) :
  result_of (run cfg w) = inr v -> v = PyInt 0 \/ v = PyInt 1.
Proof.
  start B cfg w Hrun.
  all: intros Hv; inversion Hv; auto.
Qed.

(** C7, as the script has it: a run whose final [get_info] returned is a
    successful run; its result is the exit code 0, not the info, and the
    state, the number of tools and the strategy name of that info (or their
    defaults when absent) are printed one after the other.  No run returns a
    partial-success object: what [main] returns is 0 or 1. *)
Theorem success_reports_info (cfg : Config) (w : world) h (i : AgentInfo) :
  In (CGetInfo h, Returned (RInfo i)) (calls (log_of (run cfg w))) ->
  result_of (run cfg w) = inr (PyInt 0) /\
  (exists pre post,
     output (log_of (run cfg w))
     = pre ++
       [ PVerification;
         PInfoState (get (option_map state_text (info_state i)) "unknown");
         PInfoTools (length (get (info_tools i) []));
         PInfoStrategy (get (info_strategy_name i) "unknown") ] ++ post) /\
  forall cfg' w' v,
    result_of (run cfg' w') = inr v -> v = PyInt 0 \/ v = PyInt 1.
Proof.
  intros Hin. split; [| split; [| exact main_returns_exit_code]];
    revert Hin.
  all: start B cfg w Hrun.
  all: intros Hin; in_cases Hin.
  all: first [reflexivity | do 2 eexists; find_split].
Qed.


End Control.

(* ================================================================= *)
(** ** The call protocol and the output of [main], on every path *)

Section Protocol.
Context {world conn handle summary : Type}.
Context {B : Backend world conn handle summary}.

Local Abbreviation run cfg w := (main (B := B) cfg w).

(** X1: the connection is released on every way out of the [with] block.
    Either the connect raised and it is the only backend call of the run, or
    it returned a connection, the calls that follow start with the load of
    the target id, never connect or release again, and end with exactly one
    release, of that connection. *)
Theorem connection_released_once (cfg : Config) (w : world) :
  (exists e,
     calls (log_of (run cfg w)) = [(CConnect (cfg_host cfg), Raised e)]) \/
  (exists c session,
     calls (log_of (run cfg w))
     = (CConnect (cfg_host cfg), Returned (RConn c))
       :: session ++ [(CRelease c, Returned RNone)] /\
     (exists o rest, session = (CLoad c (cfg_agent_id cfg), o) :: rest) /\
     forall x, In x session ->
               op_of (fst x) <> OpConnect /\ op_of (fst x) <> OpRelease).
Proof.
  start B cfg w Hrun.
  all: first
         [ left; eexists; reflexivity
         | right; do 2 eexists;
           split;
           [ apply (f_equal2 cons); [reflexivity | find_split]
           | split;
             [ do 2 eexists; reflexivity
             | intros x Hx; in_cases Hx; split; discriminate ] ] ].
Qed.

(** X2: in every run, successful or not, the calls made while the
    connection is held are an initial part of load, delete, list_agents,
    create, set_state, get_info, or of the same sequence without the
    delete. *)
Theorem calls_follow_the_script_order (cfg : Config) (w : world) :
  exists rest,
    session_ops (log_of (run cfg w)) ++ rest
    = [OpLoad; OpDelete; OpListAgents; OpCreate; OpSetState; OpGetInfo] \/
    session_ops (log_of (run cfg w)) ++ rest
    = [OpLoad; OpListAgents; OpCreate; OpSetState; OpGetInfo].
Proof.
  start B cfg w Hrun.
  all: eexists; first [left; reflexivity | right; reflexivity].
Qed.

(** X3: no kind of backend operation is invoked twice in a run: the script
    never retries a call. *)
Theorem no_operation_is_repeated (cfg : Config) (w : world) (k : op) :
  count_op k (log_of (run cfg w)) <= 1.
Proof.
  revert k.
  start B cfg w Hrun.
  all: intros k; destruct k; simpl; lia.
Qed.

(** X4: every backend call carries the values of the configuration and the
    connection of this run: connect is on the configured host; load and
    create are on the configured id (create also on the configured
    blueprint, name and description); list_agents, load, create and release
    are on the connection that connect returned; set_state always asks for
    RUNNING. *)
Theorem calls_use_the_configuration (cfg : Config) (w : world) c0 o :
  In (c0, o) (calls (log_of (run cfg w))) ->
  match c0 with
  | CConnect h => h = cfg_host cfg
  | CRelease c | CListAgents c =>
      In (CConnect (cfg_host cfg), Returned (RConn c))
         (calls (log_of (run cfg w)))
  | CLoad c i =>
      i = cfg_agent_id cfg /\
      In (CConnect (cfg_host cfg), Returned (RConn c))
         (calls (log_of (run cfg w)))
  | CCreate c bp i n d =>
      bp = cfg_blueprint cfg /\ i = cfg_agent_id cfg /\
      n = cfg_agent_name cfg /\ d = cfg_agent_description cfg /\
      In (CConnect (cfg_host cfg), Returned (RConn c))
         (calls (log_of (run cfg w)))
  | CSetState _ s => s = RUNNING
  | CDelete _ | CGetInfo _ => True
  end.
Proof.
  start B cfg w Hrun.
  all: intros Hin; in_cases Hin.
  all: simpl; repeat split; auto.
Qed.

(** X5: [set_state] is called only right after the [create] that returned
    its handle, and [get_info] only right after that create and a
    [set_state(RUNNING)] that returned, on the same handle. *)
Theorem agent_calls_are_on_the_created_handle (cfg : Config) (w : world) :
  (forall h s o,
     In (CSetState h s, o) (calls (log_of (run cfg w))) ->
     s = RUNNING /\
     exists pre c post,
       calls (log_of (run cfg w))
       = pre ++ (CCreate c (cfg_blueprint cfg) (cfg_agent_id cfg)
                         (cfg_agent_name cfg) (cfg_agent_description cfg),
                 Returned (RHandle h))
             :: (CSetState h RUNNING, o) :: post) /\
  (forall h o,
     In (CGetInfo h, o) (calls (log_of (run cfg w))) ->
     exists pre c post,
       calls (log_of (run cfg w))
       = pre ++ (CCreate c (cfg_blueprint cfg) (cfg_agent_id cfg)
                         (cfg_agent_name cfg) (cfg_agent_description cfg),
                 Returned (RHandle h))
             :: (CSetState h RUNNING, Returned RNone)
             :: (CGetInfo h, o) :: post).
Proof.
  start B cfg w Hrun.
  all: split.
  all: try (intros h' s' o' Hin; in_cases Hin;
            (split; [reflexivity | do 3 eexists; find_split])).
  all: intros h' o' Hin; in_cases Hin; do 3 eexists; find_split.
Qed.

(** X6: what the cleanup step prints follows what it did: the line saying
    that the agent already exists is printed exactly when the load returned
    a handle, the line saying that it was deleted exactly when the delete
    returned, and the line saying that no existing agent was found exactly
    when the load or the delete raised an Exception. *)
Theorem cleanup_messages_reflect_calls (cfg : Config) (w : world) :
  (In (PAlreadyExists (cfg_agent_id cfg)) (output (log_of (run cfg w))) <->
   exists c h, In (CLoad c (cfg_agent_id cfg), Returned (RHandle h))
                  (calls (log_of (run cfg w)))) /\
  (In PDeleted (output (log_of (run cfg w))) <->
   exists h, In (CDelete h, Returned RNone) (calls (log_of (run cfg w)))) /\
  (In (PNoExisting (cfg_agent_id cfg)) (output (log_of (run cfg w))) <->
   exists c0 e, In (c0, Raised e) (calls (log_of (run cfg w))) /\
                in_cleanup (op_of c0) = true /\ is_Exception e = true).
Proof.
  start B cfg w Hrun.
  all: split; [| split]; split.
  all: try (intros Hin; in_cases Hin; fail).
  all: try (intros (c' & h' & Hin); in_cases Hin; fail).
  all: try (intros (h' & Hin); in_cases Hin; fail).
  all: try (intros (c' & e' & Hin & Hop & He'); in_cases Hin;
            simpl in *; congruence).
  all: try (intros _; once find_in).
  all: try (intros _; do 2 eexists; once find_in).
  all: try (intros _; eexists; once find_in).
  all: intros _; do 2 eexists; split; [find_in | split; [reflexivity | assumption]].
Qed.

(** X7: [main] returns 0 exactly when the final [get_info] returned, and
    exactly when the line announcing that the setup is complete is
    printed. *)
Theorem success_is_observable (cfg : Config) (w : world) :
  (result_of (run cfg w) = inr (PyInt 0) <->
   exists h i, In (CGetInfo h, Returned (RInfo i))
                  (calls (log_of (run cfg w)))) /\
  (result_of (run cfg w) = inr (PyInt 0) <->
   In PSetupComplete (output (log_of (run cfg w)))).
Proof.
  start B cfg w Hrun.
  all: split; split.
  all: try discriminate.
  all: try (intros (h' & i' & Hin); in_cases Hin; fail).
  all: try (intros Hin; in_cases Hin; fail).
  all: try reflexivity.
  all: try (intros _; do 2 eexists; once find_in).
  all: intros _; once find_in.
Qed.

(** X8: the error report is printed exactly when [main] returns 1; it then
    closes the output, with the text of an Exception, the four
    troubleshooting hints and the configured host, and that Exception is the
    one raised by a call outside the cleanup step after which only the
    release of the connection follows. *)
Theorem error_report_closes_the_output (cfg : Config) (w : world) :
  (In PError (output (log_of (run cfg w))) <->
   result_of (run cfg w) = inr (PyInt 1)) /\
  (result_of (run cfg w) = inr (PyInt 1) ->
   exists e,
     (exists pre,
        output (log_of (run cfg w))
        = pre ++ [PError; PErrorText e; PTroubleshooting; PHint1; PHint2;
                  PHint3; PHint4 (cfg_host cfg)]) /\
     is_Exception e = true /\
     exists pre c0 released,
       calls (log_of (run cfg w)) = pre ++ (c0, Raised e) :: released /\
       in_cleanup (op_of c0) = false /\
       forall x, In x released -> op_of (fst x) = OpRelease).
Proof.
  start B cfg w Hrun.
  all: split; [split |].
  all: try discriminate.
  all: try reflexivity.
  all: try (intros Hin; in_cases Hin; fail).
  all: try (intros _; once find_in).
  all: intros _; eexists; split; [eexists; find_split |].
  all: split; [assumption |].
  all: do 3 eexists; split; [find_split | split; [reflexivity |]].
  all: intros x Hx; in_cases Hx; reflexivity.
Qed.

(** X9: when [main] lets an exception through, it is not an Exception, no
    error report is printed, and it was raised by the last backend call of
    the run, the release apart: either the connect itself, or a later call
    after which the connection acquired by the connect is still released. *)
Theorem propagated_exception (cfg : Config) (w : world) (e : exn) :
  result_of (run cfg w) = inl e ->
  is_Exception e = false /\
  ~ In PError (output (log_of (run cfg w))) /\
  exists pre c0 released,
    calls (log_of (run cfg w)) = pre ++ (c0, Raised e) :: released /\
    (released = [] /\ op_of c0 = OpConnect \/
     exists c, released = [(CRelease c, Returned RNone)] /\
               In (CConnect (cfg_host cfg), Returned (RConn c)) pre).
Proof.
  start B cfg w Hrun.
  all: intros He; try discriminate He.
  all: injection He as <-.
  all: split; [assumption | split; [intros Hin; in_cases Hin |]].
  all: do 3 eexists; split; [find_split |].
  all: first [ left; split; reflexivity
             | right; eexists; split; [reflexivity | once find_in] ].
Qed.

(** X10: when [list_agents] returns, the heading of the listing, one line
    per returned summary in the order returned (none for an empty listing)
    and the announcement of the agent to create are printed in a row, and
    the next backend call is the create with the values of the
    configuration. *)
Theorem listing_is_printed (cfg : Config) (w : world) c (l : list summary) :
  In (CListAgents c, Returned (RSummaries l)) (calls (log_of (run cfg w))) ->
  (exists pre post,
     output (log_of (run cfg w))
     = pre ++ [PCurrentAgents] ++ map (@PAgentSummary summary) l ++
       [ PCreating; PId (cfg_agent_id cfg); PName (cfg_agent_name cfg);
         PTools (length (tools (cfg_blueprint cfg)));
         PStrategy (strategy_name (strategy (cfg_blueprint cfg))) ] ++ post) /\
  exists pre o post,
    calls (log_of (run cfg w))
    = pre ++ (CListAgents c, Returned (RSummaries l))
          :: (CCreate c (cfg_blueprint cfg) (cfg_agent_id cfg)
                      (cfg_agent_name cfg) (cfg_agent_description cfg), o)
          :: post.
Proof.
  start B cfg w Hrun.
  all: intros Hin; in_cases Hin.
  all: split; [do 2 eexists; find_split | do 3 eexists; find_split].
Qed.

(** X11: a failure of [list_agents], which the script calls only to print
    the listing, stops the run: it does not return 0, no create is attempted
    and the creation is not announced. *)
Theorem listing_failure_blocks_create (cfg : Config) (w : world) c (e : exn) :
  In (CListAgents c, Raised e) (calls (log_of (run cfg w))) ->
  result_of (run cfg w) <> inr (PyInt 0) /\
  count_op OpCreate (log_of (run cfg w)) = 0 /\
  ~ In PCreating (output (log_of (run cfg w))).
Proof.
  start B cfg w Hrun.
  all: intros Hin; in_cases Hin.
  all: split; [discriminate | split; [reflexivity | intros Hn; in_cases Hn]].
Qed.

(** X12: every run starts its output with the title, the rule, the start
    time, a blank line and the line announcing the connection attempt; the
    line confirming the connection is printed exactly when the connect
    returned. *)
Theorem banner_and_connection_report (cfg : Config) (w : world) :
  (exists rest,
     output (log_of (run cfg w))
     = [PTitle; PRule; PStarted; PBlank; PConnecting] ++ rest) /\
  (In (PConnected (cfg_host cfg)) (output (log_of (run cfg w))) <->
   exists c, In (CConnect (cfg_host cfg), Returned (RConn c))
                (calls (log_of (run cfg w)))).
Proof.
  start B cfg w Hrun.
  all: split; [eexists; reflexivity | split].
  all: try (intros Hin; in_cases Hin; fail).
  all: try (intros (c' & Hin); in_cases Hin; fail).
  all: try (intros _; eexists; once find_in).
  all: intros _; once find_in.
Qed.

(** X13: when the delete of the loaded agent raises an Exception, the
    script prints that the agent already exists and, right after, that no
    existing agent was found, then goes on with the listing; it never prints
    that the agent was deleted. *)
Theorem failed_delete_is_reported_as_absent (cfg : Config) (w : world)
        h (e : exn) :
  In (CDelete h, Raised e) (calls (log_of (run cfg w))) ->
  is_Exception e = true ->
  (exists pre post,
     output (log_of (run cfg w))
     = pre ++ [PAlreadyExists (cfg_agent_id cfg);
               PNoExisting (cfg_agent_id cfg); PCurrentAgents] ++ post) /\
  ~ In PDeleted (output (log_of (run cfg w))).
Proof.
  start B cfg w Hrun.
  all: intros Hin He; in_cases Hin; try congruence.
  all: split; [do 2 eexists; find_split | intros Hn; in_cases Hn].
Qed.

(** X14: when the connect raises, the backend is left as the connect left
    it, the connect is the only call, the connection is not reported as
    established, and [main] returns 1 (or lets the exception through when it
    is not an Exception). *)
Theorem unreachable_backend (cfg : Config) (w w0 : world) (e : exn) :
  connect (cfg_host cfg) w = (inl e, w0) ->
  world_of (run cfg w) = w0 /\
  calls (log_of (run cfg w)) = [(CConnect (cfg_host cfg), Raised e)] /\
  result_of (run cfg w) = (if is_Exception e then inr (PyInt 1) else inl e) /\
  ~ In (PConnected (cfg_host cfg)) (output (log_of (run cfg w))).
Proof.
  start B cfg w Hrun.
  all: intros Hc; try congruence.
  all: injection Hc as <- <-.
  all: use_exc; repeat split; intros Hn; in_cases Hn.
Qed.
End Protocol.

(* ================================================================= *)
(** ** The reference backend *)

Section Reference.
Import Ref.

Local Abbreviation event := (event string handle summary).

(** *** The store *)

Lemma lookup_none i st : existsb (has_id i) st = false -> lookup i st = None.
Proof.
  unfold lookup. induction st as [|r st IH]; simpl; [reflexivity|].
  destruct (has_id i r); simpl; [discriminate | exact IH].
Qed.

Lemma lookup_last i st r :
  existsb (has_id i) st = false -> has_id i r = true ->
  lookup i (st ++ [r]) = Some r.
Proof.
  unfold lookup. intros Hst Hr. induction st as [|x st IH]; simpl in *.
  - rewrite Hr. reflexivity.
  - destruct (has_id i x); simpl in *; [discriminate | auto].
Qed.

Lemma under_last i st r :
  existsb (has_id i) st = false -> has_id i r = true ->
  under i (st ++ [r]) = [r].
Proof.
  unfold under. intros Hst Hr. induction st as [|x st IH]; simpl in *.
  - rewrite Hr. reflexivity.
  - destruct (has_id i x); simpl in *; [discriminate | auto].
Qed.

Lemma map_last i st r (f : resource -> resource) :
  existsb (has_id i) st = false -> has_id i r = true ->
  map (fun x => if has_id i x then f x else x) (st ++ [r]) = st ++ [f r].
Proof.
  intros Hst Hr. induction st as [|x st IH]; simpl in *.
  - rewrite Hr. reflexivity.
  - destruct (has_id i x) eqn:Hx; simpl in *; [discriminate|].
    rewrite IH; auto.
Qed.

Lemma removed_absent i st : existsb (has_id i) (without i st) = false.
Proof.
  unfold without. induction st as [|x st IH]; simpl; [reflexivity|].
  destruct (has_id i x) eqn:Hx; simpl; [exact IH|].
  rewrite Hx. exact IH.
Qed.

Lemma removed_nothing i st :
  existsb (has_id i) st = false -> without i st = st.
Proof.
  unfold without. induction st as [|x st IH]; simpl; [reflexivity|].
  destruct (has_id i x); simpl; [discriminate|]. intros H. f_equal. auto.
Qed.

Lemma removed_last i st r :
  has_id i r = true ->
  without i (st ++ [r]) = without i st.
Proof.
  unfold without. intros Hr. rewrite filter_app. simpl. rewrite Hr. simpl. apply app_nil_r.
Qed.

Lemma has_id_refl i n d bp s :
  has_id i {| res_identity := {| id := i; display_name := n; description := d |};
              res_blueprint := bp; res_state := s |} = true.
Proof. unfold has_id. simpl. apply String.eqb_refl. Qed.

(** *** The operations when no failure is planned *)

Lemma guarded_quiet {A} (f : world -> (exn + A) * world) w :
  faults w = [] -> guarded f w = f w.
Proof. unfold guarded. intros ->. reflexivity. Qed.

Lemma connect_quiet host (w : world) :
  faults w = [] -> connect host w = (inr host, w).
Proof. intros H. simpl. unfold ref_connect. rewrite guarded_quiet; auto. Qed.

Lemma list_agents_quiet c (w : world) :
  faults w = [] -> exists l, list_agents c w = (inr l, w).
Proof.
  intros H. simpl. unfold ref_list_agents. rewrite guarded_quiet; eauto.
Qed.

Lemma load_quiet_absent c i (w : world) :
  faults w = [] -> existsb (has_id i) (store w) = false ->
  load c i w = (inl NotFoundError, w).
Proof.
  intros H Hi. simpl. unfold ref_load. rewrite guarded_quiet; auto.
  rewrite lookup_none; auto.
Qed.

Lemma load_quiet_found c i (w : world) :
  faults w = [] -> existsb (has_id i) (store w) = true ->
  exists h, load c i w = (inr h, w) /\ id (h_identity h) = i.
Proof.
  intros H Hi. simpl. unfold ref_load. rewrite guarded_quiet; auto.
  unfold lookup. destruct (find (has_id i) (store w)) as [r|] eqn:Hf.
  - eexists; split; [reflexivity|]. apply find_some in Hf.
    destruct Hf as [_ Hf]. unfold has_id in Hf. apply String.eqb_eq in Hf.
    simpl. congruence.
  - exfalso. apply existsb_exists in Hi. destruct Hi as [x [Hx Hid]].
    apply (find_none _ _ Hf) in Hx. congruence.
Qed.

Lemma delete_quiet h (w : world) :
  faults w = [] -> existsb (has_id (id (h_identity h))) (store w) = true ->
  delete h w
  = (inr tt, set_store (without (id (h_identity h)) (store w)) w).
Proof.
  intros H Hi. simpl. unfold ref_delete. rewrite guarded_quiet; auto.
  simpl. rewrite Hi. reflexivity.
Qed.

Lemma create_quiet c bp i n d (w : world) :
  faults w = [] -> existsb (has_id i) (store w) = false ->
  resolvable w bp = true ->
  create c bp i n d w
  = (inr {| h_identity := {| id := i; display_name := n; description := d |};
            h_blueprint := bp |},
     set_store (store w ++
                [{| res_identity := {| id := i; display_name := n; description := d |};
                    res_blueprint := bp; res_state := CREATED |}]) w).
Proof.
  intros H Hi Hr. simpl. unfold ref_create. rewrite guarded_quiet; auto.
  rewrite Hi, Hr. reflexivity.
Qed.

Lemma set_state_quiet_last h s st r (w : world) :
  faults w = [] -> store w = st ++ [r] ->
  existsb (has_id (id (h_identity h))) st = false ->
  has_id (id (h_identity h)) r = true ->
  valid_transition (res_state r) s = true ->
  set_state h s w
  = (inr tt, set_store (st ++ [{| res_identity := res_identity r;
                                  res_blueprint := res_blueprint r;
                                  res_state := s |}]) w).
Proof.
  intros H Hst Habs Hr Hv. simpl. unfold ref_set_state.
  rewrite guarded_quiet; auto. simpl.
  rewrite Hst, (@lookup_last _ _ _ Habs Hr), Hv.
  rewrite (@map_last _ _ _ (fun r' => {| res_identity := res_identity r';
                                     res_blueprint := res_blueprint r';
                                     res_state := s |}) Habs Hr).
  reflexivity.
Qed.

Lemma get_info_quiet_last h st r (w : world) :
  faults w = [] -> store w = st ++ [r] ->
  existsb (has_id (id (h_identity h))) st = false ->
  has_id (id (h_identity h)) r = true ->
  get_info h w = (inr (info_of (res_state r) (res_blueprint r)), w).
Proof.
  intros H Hst Habs Hr. simpl. unfold ref_get_info.
  rewrite guarded_quiet; auto. rewrite Hst, (@lookup_last _ _ _ Habs Hr).
  reflexivity.
Qed.

(* The part of the run that follows the cleanup, from a world w1 with no
   failure planned and nothing stored under the id. *)
Ltac forward Hrun cfg w1 Hq1 Habs Hres :=
  let l := fresh "l" in
  let Hl := fresh "Hl" in
  destruct (list_agents_quiet (cfg_host cfg) w1 Hq1) as [l Hl];
  rewrite Hl in Hrun; cbv beta iota in Hrun;
  rewrite for_each_print in Hrun; cbv beta iota in Hrun;
  rewrite (create_quiet (cfg_host cfg) (cfg_blueprint cfg) (cfg_agent_id cfg)
             (cfg_agent_name cfg) (cfg_agent_description cfg) w1 Hq1 Habs Hres)
    in Hrun;
  cbv beta iota in Hrun;
  let E := fresh "E" in
  pose proof (set_state_quiet_last (handle_of cfg) RUNNING (store w1)
                (published cfg CREATED)
                (set_store (store w1 ++ [published cfg CREATED]) w1)
                Hq1 eq_refl Habs (has_id_refl _ _ _ _ _) eq_refl) as E;
  cbv beta iota delta [handle_of published res_identity res_blueprint] in E;
  rewrite E in Hrun; clear E;
  cbv beta iota in Hrun;
  pose proof (get_info_quiet_last (handle_of cfg) (store w1)
                (published cfg RUNNING)
                (set_store (store w1 ++ [published cfg RUNNING])
                           (set_store (store w1 ++ [published cfg CREATED]) w1))
                Hq1 eq_refl Habs (has_id_refl _ _ _ _ _)) as E;
  cbv beta iota delta [handle_of published res_state res_blueprint] in E;
  rewrite E in Hrun; clear E;
  cbv beta iota in Hrun;
  rewrite for_each_print in Hrun; cbv beta iota in Hrun;
  injection Hrun as <- <- <-.

(** *** A publish on a backend that does not fail *)

(** With no failure planned and a blueprint the backend resolves, the run
    succeeds and leaves the store with everything under the id removed and
    the published resource, RUNNING, added; when a resource was stored under
    the id, no call of the run raises. *)
Lemma publish_end_state cfg (w : world) :
  faults w = [] -> resolvable w (cfg_blueprint cfg) = true ->
  result_of (run cfg w) = inr (PyInt 0) /\
  world_of (run cfg w)
  = set_store (without (cfg_agent_id cfg) (store w) ++ [published cfg RUNNING]) w /\
  (existsb (has_id (cfg_agent_id cfg)) (store w) = true ->
   forall c e, ~ In (c, Raised e) (calls (log_of (run cfg w)))).
Proof.
  intros Hq Hres.
  destruct (run cfg w) as [[r w'] log] eqn:Hrun.
  unfold run in Hrun. unfold_main Hrun.
  rewrite (connect_quiet (cfg_host cfg) w Hq) in Hrun. cbv beta iota in Hrun.
  destruct (existsb (has_id (cfg_agent_id cfg)) (store w)) eqn:Hex.
  - destruct (load_quiet_found (cfg_host cfg) _ w Hq Hex) as [h0 [Hl Hh0]].
    rewrite Hl in Hrun. cbv beta iota in Hrun.
    rewrite <- Hh0 in Hex.
    rewrite (delete_quiet h0 w Hq Hex) in Hrun. cbv beta iota in Hrun.
    rewrite Hh0 in Hrun.
    set (w1 := set_store (without (cfg_agent_id cfg) (store w)) w) in Hrun.
    assert (Hq1 : faults w1 = []) by exact Hq.
    assert (Hres1 : resolvable w1 (cfg_blueprint cfg) = true) by exact Hres.
    assert (Habs : existsb (has_id (cfg_agent_id cfg)) (store w1) = false)
      by apply removed_absent.
    forward Hrun cfg w1 Hq1 Habs Hres1.
    unfold result_of, world_of, log_of. norm_log.
    split; [reflexivity | split; [reflexivity |]].
    intros _ c e Hin. in_cases Hin.
  - rewrite (load_quiet_absent (cfg_host cfg) _ w Hq Hex) in Hrun.
    cbv beta iota in Hrun. simpl is_Exception in Hrun. cbv beta iota in Hrun.
    forward Hrun cfg w Hq Hex Hres.
    unfold result_of, world_of, log_of. norm_log.
    split; [reflexivity | split; [| discriminate]].
    rewrite removed_nothing by exact Hex. reflexivity.
Qed.

Lemma nothing_under i st : under i st = [] -> existsb (has_id i) st = false.
Proof.
  unfold under. induction st as [|x st IH]; simpl; [reflexivity|].
  destruct (has_id i x); simpl; [discriminate | exact IH].
Qed.

(** C5: for every identity and blueprint, on a backend that holds no
    resource under the id (and plans no failure and resolves the blueprint),
    the publish succeeds end to end: the initial load raises NotFoundError,
    the script notes it as expected and proceeds to list_agents and to the
    create of the configured agent, sets it RUNNING and reads its info; it
    returns 0, reports no error (no not-found failure reaches the caller)
    and leaves the agent stored, RUNNING, after what the backend held. *)
Theorem publish_of_absent_agent (cfg : Config) (w : world) :
  faults w = [] -> resolvable w (cfg_blueprint cfg) = true ->
  under (cfg_agent_id cfg) (store w) = [] ->
  result_of (run cfg w) = inr (PyInt 0) /\
  (exists l,
     calls (log_of (run cfg w))
     = [ (CConnect (cfg_host cfg), Returned (RConn (cfg_host cfg)));
         (CLoad (cfg_host cfg) (cfg_agent_id cfg), Raised NotFoundError);
         (CListAgents (cfg_host cfg), Returned (RSummaries l));
         (CCreate (cfg_host cfg) (cfg_blueprint cfg) (cfg_agent_id cfg)
                  (cfg_agent_name cfg) (cfg_agent_description cfg),
          Returned (RHandle (handle_of cfg)));
         (CSetState (handle_of cfg) RUNNING, Returned RNone);
         (CGetInfo (handle_of cfg),
          Returned (RInfo (info_of RUNNING (cfg_blueprint cfg))));
         (CRelease (cfg_host cfg), Returned RNone) ]) /\
  In (PNoExisting (cfg_agent_id cfg)) (output (log_of (run cfg w))) /\
  ~ In PError (output (log_of (run cfg w))) /\
  (forall e, ~ In (PErrorText e) (output (log_of (run cfg w)))) /\
  store (world_of (run cfg w)) = store w ++ [published cfg RUNNING].
Proof.
  intros Hq Hres Hnone. apply nothing_under in Hnone.
  destruct (run cfg w) as [[r w'] log] eqn:Hrun.
  unfold run in Hrun. unfold_main Hrun.
  rewrite (connect_quiet (cfg_host cfg) w Hq) in Hrun. cbv beta iota in Hrun.
  rewrite (load_quiet_absent (cfg_host cfg) _ w Hq Hnone) in Hrun.
  cbv beta iota in Hrun. simpl is_Exception in Hrun. cbv beta iota in Hrun.
  forward Hrun cfg w Hq Hnone Hres.
  unfold result_of, world_of, log_of. norm_log.
  split; [reflexivity |].
  split; [eexists; reflexivity |].
  split; [once find_in |].
  split; [intros Hn; in_cases Hn |].
  split; [intros e Hn; in_cases Hn | reflexivity].
Qed.

(** *** What a call that returned, or raised, did to the store *)

Lemma store_guarded {A} (f : world -> (exn + A) * world)
      (P : (exn + A) -> list resource -> list resource -> Prop) :
  (forall w r w', f w = (r, w') -> P r (store w) (store w')) ->
  (forall e st, P (inl e) st st) ->
  forall w r w', guarded f w = (r, w') -> P r (store w) (store w').
Proof.
  intros Hf Hfault w r w'. unfold guarded.
  destruct (faults w) as [|[e|] fs].
  - apply Hf.
  - intros H. injection H as <- <-. apply Hfault.
  - intros H. apply Hf in H. exact H.
Qed.

Lemma create_returned c bp i n d (w w' : world) h :
  create c bp i n d w = (inr h, w') ->
  existsb (has_id i) (store w) = false /\
  h = {| h_identity := {| id := i; display_name := n; description := d |};
         h_blueprint := bp |} /\
  store w'
  = store w ++ [{| res_identity := {| id := i; display_name := n; description := d |};
                   res_blueprint := bp; res_state := CREATED |}].
Proof.
  simpl. unfold ref_create. intros H.
  apply (store_guarded _
           (fun r st st' =>
              match r with
              | inl _ => True
              | inr h => existsb (has_id i) st = false /\
                         h = {| h_identity := {| id := i; display_name := n; description := d |};
                                h_blueprint := bp |} /\
                         st' = st ++ [{| res_identity := {| id := i; display_name := n; description := d |};
                                         res_blueprint := bp; res_state := CREATED |}]
              end)) in H; [exact H | | intros; exact I].
  clear. intros w r w' H.
  destruct (existsb (has_id i) (store w)); [injection H as <- <-; exact I|].
  destruct (negb (resolvable w bp)); injection H as <- <-; simpl; auto.
Qed.

Lemma set_state_raised h s (w w' : world) e :
  set_state h s w = (inl e, w') -> store w' = store w.
Proof.
  simpl. unfold ref_set_state. intros H.
  apply (store_guarded _
           (fun r st st' => match r with inl _ => st' = st | inr _ => True end))
    in H; [exact H | | reflexivity].
  clear. intros w r w' H. simpl in H.
  destruct (lookup (id (h_identity h)) (store w)) as [x|].
  - destruct (valid_transition (res_state x) s); injection H as <- <-; auto.
  - injection H as <- <-; auto.
Qed.

(** C6: when [set_state(RUNNING)] fails after a successful [create], the
    failure goes to the caller (exit code 1 with the error reported, or the
    exception itself when it is not an Exception); the failed call comes
    right after the create of its handle and only the release of the
    connection follows it, so nothing is deleted or changed afterwards; and
    the backend is left with exactly the freshly created resource under the
    id, in state CREATED. *)
Theorem set_state_failure_leaves_created (cfg : Config) (w : world)
        h (e : exn) :
  In (CSetState h RUNNING, Raised e) (calls (log_of (run cfg w))) ->
  result_of (run cfg w) = (if is_Exception e then inr (PyInt 1) else inl e) /\
  (is_Exception e = true -> In (PErrorText e) (output (log_of (run cfg w)))) /\
  (exists pre c,
     calls (log_of (run cfg w))
     = pre ++ [ (CCreate c (cfg_blueprint cfg) (cfg_agent_id cfg)
                         (cfg_agent_name cfg) (cfg_agent_description cfg),
                 Returned (RHandle h));
                (CSetState h RUNNING, Raised e);
                (CRelease c, Returned RNone) ]) /\
  under (cfg_agent_id cfg) (store (world_of (run cfg w)))
  = [published cfg CREATED].
Proof.
  unfold run.
  start backend cfg w Hrun.
  all: intros Hin; in_cases Hin.
  all: use_exc; repeat split; try (intros; discriminate).
  all: try (intros _; once find_in).
  all: try (do 2 eexists; find_split).
  all: apply create_returned in Hcreate; destruct Hcreate as (Habs & _ & Hst).
  all: apply set_state_raised in Hset.
  all: unfold ref_release; rewrite Hset, Hst.
  all: apply under_last; [exact Habs | apply has_id_refl].
Qed.

(** C1: on a backend that plans no failure and resolves the blueprint (a
    fresh backend in particular), two runs of the publish workflow in
    succession both succeed; after them exactly one resource is stored under
    the id, the published one, in state RUNNING; no call of the second run
    raises, so no error comes from the id already existing; and the second
    run leaves the backend as the first did. *)
Theorem publish_twice (cfg : Config) (w : world) :
  faults w = [] -> resolvable w (cfg_blueprint cfg) = true ->
  let first := run cfg w in
  let second := run cfg (world_of first) in
  result_of first = inr (PyInt 0) /\
  result_of second = inr (PyInt 0) /\
  under (cfg_agent_id cfg) (store (world_of second)) = [published cfg RUNNING] /\
  (forall c e, ~ In (c, Raised e) (calls (log_of second))) /\
  world_of second = world_of first.
Proof.
  intros Hq Hres first second.
  destruct (publish_end_state cfg w Hq Hres) as (R1 & W1 & _).
  fold first in R1, W1.
  assert (Hq1 : faults (world_of first) = []) by (rewrite W1; exact Hq).
  assert (Hres1 : resolvable (world_of first) (cfg_blueprint cfg) = true)
    by (rewrite W1; exact Hres).
  assert (Htaken : existsb (has_id (cfg_agent_id cfg)) (store (world_of first)) = true).
  { rewrite W1. simpl. rewrite existsb_app. simpl.
    unfold published. rewrite has_id_refl. rewrite orb_true_r. reflexivity. }
  destruct (publish_end_state cfg (world_of first) Hq1 Hres1) as (R2 & W2 & N2).
  fold second in R2, W2, N2.
  assert (Hst : store (world_of second) = store (world_of first)).
  { rewrite W2, W1. simpl.
    rewrite removed_last by apply has_id_refl.
    rewrite (removed_nothing _ _ (removed_absent _ _)). reflexivity. }
  repeat split; auto.
  - rewrite Hst, W1. simpl.
    apply under_last; [apply removed_absent | apply has_id_refl].
  - rewrite W2. rewrite W1 in Hst |- *. rewrite W2, W1 in Hst.
    simpl in Hst |- *. unfold set_store. simpl. f_equal. exact Hst.
Qed.

Ltac pick := repeat first [ left; reflexivity | right ].

(** *** Concrete runs *)

(** The description has the 562 bytes of the stripped text of the script. *)
Example AGENT_DESCRIPTION_bytes : String.length AGENT_DESCRIPTION = 562.
Proof. vm_compute. reflexivity. Qed.

(** The script on a fresh backend: the load finds nothing, the agent is
    created and left RUNNING. *)
Example fresh_run :
  result_of (run script_config fresh) = inr (PyInt 0) /\
  ops (log_of (run script_config fresh))
  = [OpConnect; OpLoad; OpListAgents; OpCreate; OpSetState; OpGetInfo;
     OpRelease] /\
  store (world_of (run script_config fresh)) = [published script_config RUNNING].
Proof. vm_compute. repeat split. Qed.

(** The script run again: the agent of the first run is loaded and deleted,
    then created anew. *)
Example second_run :
  let w1 := world_of (run script_config fresh) in
  result_of (run script_config w1) = inr (PyInt 0) /\
  ops (log_of (run script_config w1))
  = [OpConnect; OpLoad; OpDelete; OpListAgents; OpCreate; OpSetState;
     OpGetInfo; OpRelease] /\
  store (world_of (run script_config w1)) = [published script_config RUNNING].
Proof. vm_compute. repeat split. Qed.

(** Scenarios A and B of the specification: a first publish with two tools,
    then a publish under the same id with the five tools of the script; the
    info read at the end of each run counts two, then five tools. *)
Example scenario_A_then_B :
  let w1 := world_of (run two_tools fresh) in
  In (PInfoTools 2) (output (log_of (run two_tools fresh))) /\
  In (PInfoTools 5) (output (log_of (run script_config w1))) /\
  store (world_of (run script_config w1)) = [published script_config RUNNING].
Proof. vm_compute. repeat split; pick. Qed.

(** The backend unreachable at the load step, the id being taken: the load
    failure is absorbed, the create conflicts, and the run ends with exit
    code 1 and the old resource in place. *)
Example taken_and_unreachable_at_load_run :
  result_of (run script_config taken_and_unreachable_at_load) = inr (PyInt 1) /\
  calls (log_of (run script_config taken_and_unreachable_at_load))
  = [ (CConnect HOST, Returned (RConn HOST));
      (CLoad HOST AGENT_ID, Raised ConnectionError);
      (CListAgents HOST,
       Returned (RSummaries [{| sum_id := AGENT_ID; sum_name := AGENT_NAME;
                                sum_state := RUNNING |}]));
      (CCreate HOST AGENT_BLUEPRINT AGENT_ID AGENT_NAME AGENT_DESCRIPTION,
       Raised ConflictError);
      (CRelease HOST, Returned RNone) ].
Proof. vm_compute. repeat split. Qed.

(** The backend unreachable at the set_state step: exit code 1, the agent
    stays CREATED. *)
Example unreachable_at_set_state_run :
  result_of (run script_config unreachable_at_set_state) = inr (PyInt 1) /\
  ops (log_of (run script_config unreachable_at_set_state))
  = [OpConnect; OpLoad; OpListAgents; OpCreate; OpSetState; OpRelease] /\
  store (world_of (run script_config unreachable_at_set_state))
  = [published script_config CREATED].
Proof. vm_compute. repeat split. Qed.

(** *** The statements of the specification that the script does not meet *)

(** C2, as stated, fails: with the backend unreachable at the load step
    (ConnectionError) the script goes on, creates the agent and returns 0. *)
Lemma load_failure_is_not_fatal :
  ~ stated_load_failure_is_fatal (run script_config unreachable_at_load).
Proof.
  intros H.
  destruct (H HOST AGENT_ID) as [Hfail _].
  - vm_compute. pick.
  - apply Hfail. vm_compute. reflexivity.
Qed.


(** C3, as stated, fails: on a fresh backend the successful run calls
    list_agents between the load and the create. *)
Lemma order_has_list_agents :
  ~ stated_order (run script_config fresh).
Proof.
  intros H. destruct H as [found Hfound].
  - vm_compute. reflexivity.
  - vm_compute in Hfound. destruct found; discriminate Hfound.
Qed.

(** C7, as stated, fails: on a fresh backend the final get_info returns the
    info of the RUNNING agent and [main] returns the integer 0, not that
    info. *)
Lemma main_returns_exit_code_not_info :
  ~ stated_returns_info (run script_config fresh).
Proof.
  intros H.
  assert (X := H (handle_of script_config)
                 (info_of RUNNING AGENT_BLUEPRINT)).
  assert (Hin : In (CGetInfo (handle_of script_config),
                    Returned (RInfo (info_of RUNNING AGENT_BLUEPRINT)))
                   (calls (log_of (run script_config fresh)))).
  { vm_compute. pick. }
  specialize (X Hin). vm_compute in X. discriminate X.
Qed.


(** C9, as stated, fails: on a fresh backend the load raises NotFoundError,
    an Exception, and [main] returns 0. *)
Lemma absorbed_failure_exits_0 :
  ~ stated_any_failure_exits_1 (run script_config fresh).
Proof.
  intros H.
  assert (X : result_of (run script_config fresh) = inr (PyInt 1)).
  { apply (H (CLoad HOST AGENT_ID) NotFoundError);
      [vm_compute; pick | reflexivity]. }
  vm_compute in X. discriminate X.
Qed.

(** *** The theorems at concrete runs *)

Lemma publish_twice_witness :
  faults fresh = [] /\ resolvable fresh AGENT_BLUEPRINT = true /\
  under AGENT_ID
        (store (world_of (run script_config
                              (world_of (run script_config fresh)))))
  = [published script_config RUNNING].
Proof.
  split; [reflexivity | split; [reflexivity |]].
  destruct (publish_twice script_config fresh eq_refl eq_refl)
    as (_ & _ & H & _).
  exact H.
Defined.


Lemma failure_policy_witness :
  In (CLoad HOST AGENT_ID, Raised ConnectionError)
     (calls (log_of (run script_config unreachable_at_load))) /\
  is_Exception ConnectionError = true /\
  In (PNoExisting AGENT_ID)
     (output (log_of (run script_config unreachable_at_load))) /\
  result_of (run script_config unreachable_at_load) = inr (PyInt 0) /\
  count_op OpCreate (log_of (run script_config unreachable_at_load)) = 1.
Proof.
  assert (Hin : In (CLoad HOST AGENT_ID, Raised ConnectionError)
                   (calls (log_of (run script_config unreachable_at_load)))).
  { vm_compute. pick. }
  assert (Hall : forall c' e',
             In (c', Raised e')
                (calls (log_of (run script_config unreachable_at_load))) ->
             in_cleanup (op_of c') = true).
  { intros c' e' H. vm_compute in H.
    repeat (destruct H as [H | H]; [try discriminate H |]);
      [ injection H as <- _; reflexivity | contradiction ]. }
  split; [exact Hin | split; [reflexivity |]].
  destruct (failure_policy (B := backend) script_config
              unreachable_at_load (CLoad HOST AGENT_ID) ConnectionError
              Hin eq_refl) as (Hnote & _ & Hgoes).
  split; [exact Hnote | exact (Hgoes Hall)].
Defined.

Lemma success_call_sequence_witness :
  result_of (run script_config fresh) = inr (PyInt 0) /\
  length (calls (log_of (run script_config fresh))) = 7.
Proof.
  assert (Hok : result_of (run script_config fresh) = inr (PyInt 0))
    by (vm_compute; reflexivity).
  split; [exact Hok |].
  destruct (success_call_sequence (B := backend) script_config fresh Hok)
    as [(c & e & l & h & i & H) | (c & h0 & o & l & h & i & H)].
  - unfold run. rewrite H. reflexivity.
  - vm_compute in H. discriminate H.
Defined.

Lemma publish_of_absent_agent_witness :
  faults fresh = [] /\ resolvable fresh AGENT_BLUEPRINT = true /\
  under AGENT_ID (store fresh) = [] /\
  result_of (run script_config fresh) = inr (PyInt 0) /\
  ~ In PError (output (log_of (run script_config fresh))).
Proof.
  split; [reflexivity | split; [reflexivity | split; [reflexivity |]]].
  destruct (publish_of_absent_agent script_config fresh eq_refl eq_refl
              eq_refl) as (Hr & _ & _ & Hn & _).
  split; [exact Hr | exact Hn].
Defined.

Lemma set_state_failure_leaves_created_witness :
  In (CSetState (handle_of script_config) RUNNING, Raised ConnectionError)
     (calls (log_of (run script_config unreachable_at_set_state))) /\
  under AGENT_ID (store (world_of (run script_config unreachable_at_set_state)))
  = [published script_config CREATED].
Proof.
  assert (Hin : In (CSetState (handle_of script_config) RUNNING,
                    Raised ConnectionError)
                   (calls (log_of (run script_config
                                       unreachable_at_set_state)))).
  { vm_compute. pick. }
  split; [exact Hin |].
  destruct (set_state_failure_leaves_created script_config
              unreachable_at_set_state (handle_of script_config)
              ConnectionError Hin) as (_ & _ & _ & H).
  exact H.
Defined.

Lemma success_reports_info_witness :
  In (CGetInfo (handle_of script_config),
      Returned (RInfo (info_of RUNNING AGENT_BLUEPRINT)))
     (calls (log_of (run script_config fresh))) /\
  result_of (run script_config fresh) = inr (PyInt 0).
Proof.
  assert (Hin : In (CGetInfo (handle_of script_config),
                    Returned (RInfo (info_of RUNNING AGENT_BLUEPRINT)))
                   (calls (log_of (run script_config fresh)))).
  { vm_compute. pick. }
  split; [exact Hin |].
  exact (proj1 (success_reports_info (B := backend) script_config fresh
                  (handle_of script_config)
                  (info_of RUNNING AGENT_BLUEPRINT) Hin)).
Defined.


End Reference.

(* ================================================================= *)
(** ** The call protocol at concrete runs *)

Section ProtocolRuns.
Import Ref.

Ltac at_position := repeat first [ left; reflexivity | right ].

(** The id being taken and the backend unreachable when the agents are
    listed: the old agent is deleted, nothing is created, exit code 1. *)
Example taken_and_unreachable_at_list_run :
  result_of (run script_config taken_and_unreachable_at_list) = inr (PyInt 1) /\
  ops (log_of (run script_config taken_and_unreachable_at_list))
  = [OpConnect; OpLoad; OpDelete; OpListAgents; OpRelease] /\
  store (world_of (run script_config taken_and_unreachable_at_list)) = [].
Proof. vm_compute. repeat split. Qed.

(** The run interrupted at the load: the interrupt goes through both
    handlers, after the release of the connection. *)
Example interrupted_at_load_run :
  result_of (run script_config interrupted_at_load) = inl KeyboardInterrupt /\
  ops (log_of (run script_config interrupted_at_load))
  = [OpConnect; OpLoad; OpRelease].
Proof. vm_compute. repeat split. Qed.

Lemma calls_use_the_configuration_witness :
  In (CLoad HOST AGENT_ID, Raised NotFoundError)
     (calls (log_of (run script_config fresh))) /\
  In (CConnect HOST, Returned (RConn HOST))
     (calls (log_of (run script_config fresh))).
Proof.
  assert (Hin : In (CLoad HOST AGENT_ID, Raised NotFoundError)
                   (calls (log_of (run script_config fresh)))).
  { vm_compute. at_position. }
  split; [exact Hin |].
  exact (proj2 (@calls_use_the_configuration world string handle summary backend script_config
                  fresh (CLoad HOST AGENT_ID) (Raised NotFoundError) Hin)).
Defined.

Lemma propagated_exception_witness :
  result_of (run script_config interrupted_at_load) = inl KeyboardInterrupt /\
  ~ In PError (output (log_of (run script_config interrupted_at_load))).
Proof.
  assert (Hr : result_of (run script_config interrupted_at_load)
               = inl KeyboardInterrupt) by (vm_compute; reflexivity).
  split; [exact Hr |].
  exact (proj1 (proj2 (@propagated_exception world string handle summary backend script_config
                         interrupted_at_load KeyboardInterrupt Hr))).
Defined.

Lemma listing_is_printed_witness :
  In (CListAgents HOST,
      Returned (RSummaries [{| sum_id := AGENT_ID; sum_name := AGENT_NAME;
                               sum_state := RUNNING |}]))
     (calls (log_of (run script_config taken_and_unreachable_at_load))) /\
  exists pre o post,
    calls (log_of (run script_config taken_and_unreachable_at_load))
    = pre ++ (CListAgents HOST,
              Returned (RSummaries [{| sum_id := AGENT_ID;
                                       sum_name := AGENT_NAME;
                                       sum_state := RUNNING |}]))
          :: (CCreate HOST AGENT_BLUEPRINT AGENT_ID AGENT_NAME
                      AGENT_DESCRIPTION, o)
          :: post.
Proof.
  assert (Hin : In (CListAgents HOST,
                    Returned (RSummaries [{| sum_id := AGENT_ID;
                                             sum_name := AGENT_NAME;
                                             sum_state := RUNNING |}]))
                   (calls (log_of (run script_config
                                       taken_and_unreachable_at_load)))).
  { vm_compute. at_position. }
  split; [exact Hin |].
  exact (proj2 (@listing_is_printed world string handle summary backend script_config
                  taken_and_unreachable_at_load HOST _ Hin)).
Defined.

Lemma listing_failure_blocks_create_witness :
  In (CListAgents HOST, Raised ConnectionError)
     (calls (log_of (run script_config taken_and_unreachable_at_list))) /\
  count_op OpCreate (log_of (run script_config taken_and_unreachable_at_list))
  = 0.
Proof.
  assert (Hin : In (CListAgents HOST, Raised ConnectionError)
                   (calls (log_of (run script_config
                                       taken_and_unreachable_at_list)))).
  { vm_compute. at_position. }
  split; [exact Hin |].
  exact (proj1 (proj2 (@listing_failure_blocks_create world string handle summary backend
                         script_config taken_and_unreachable_at_list HOST
                         ConnectionError Hin))).
Defined.

Lemma failed_delete_is_reported_as_absent_witness :
  In (CDelete (handle_of script_config), Raised ConnectionError)
     (calls (log_of (run script_config taken_and_unreachable_at_delete))) /\
  is_Exception ConnectionError = true /\
  ~ In PDeleted
       (output (log_of (run script_config taken_and_unreachable_at_delete))).
Proof.
  assert (Hin : In (CDelete (handle_of script_config), Raised ConnectionError)
                   (calls (log_of (run script_config
                                       taken_and_unreachable_at_delete)))).
  { vm_compute. at_position. }
  split; [exact Hin | split; [reflexivity |]].
  exact (proj2 (@failed_delete_is_reported_as_absent world string handle summary backend
                  script_config taken_and_unreachable_at_delete
                  (handle_of script_config) ConnectionError Hin eq_refl)).
Defined.

Lemma unreachable_backend_witness :
  connect HOST unreachable = (inl ConnectionError, set_faults [] unreachable) /\
  world_of (run script_config unreachable) = set_faults [] unreachable /\
  result_of (run script_config unreachable) = inr (PyInt 1).
Proof.
  assert (Hc : connect (cfg_host script_config) unreachable
               = (inl ConnectionError, set_faults [] unreachable))
    by reflexivity.
  split; [exact Hc |].
  destruct (@unreachable_backend world string handle summary backend script_config unreachable
              (set_faults [] unreachable) ConnectionError Hc)
    as (Hw & _ & Hr & _).
  split; [exact Hw | exact Hr].
Defined.

End ProtocolRuns.
